(** * Tiered notifications: a shallow embedding of [tiered_notifier.py]

    The development follows the source file top to bottom: the values the
    program reads and writes (JSON documents, Python dictionaries), the
    exceptions it raises and catches, the activity store
    ([SessionTracker]), the two notification tiers, the router
    ([TieredNotifier]), the script of the detached delayed task and the
    entry point [main].

    Modelling conventions.
    - A finite Python float is a rational ([Q]): the clock and the
      timestamps of the store are exact, and the rounding of float
      arithmetic is left out.  The other values [json.load] gives for a
      number have constructors of their own: a Python integer ([JInt]),
      which arithmetic with a float converts when it fits a float and
      rejects with [OverflowError] when it does not, not-a-number
      ([JNaN]) and the two infinities ([JInf]).  The threshold and the
      delay are integers, as in [NotificationConfig.delay_seconds].
    - Session identifiers, titles and messages are strings, as the
      annotations of [mark_activity] and [send_tiered_notification] say,
      and the configuration is the well-typed [NotificationConfig] that
      [_load_config] returned.
    - Everything outside the process (helper programs, the push server,
      the directory of the store) is an oracle that answers each call
      from the history of the run; it may answer with a return code or
      with a raised exception.
    - A path that exists can still refuse to be read ([Unreadable]); a
      write to the activity file that is reached is taken to succeed, and
      so are writing the temporary script and starting it.
    - The temporary script is generated text.  [DelayScript.parse] gives
      the program the interpreter reads from it, for the tasks whose
      title, message, session identifier and settings the template
      surely reads as themselves. *)

From Stdlib Require Import String Ascii List ZArith QArith Bool Lia Lqa.
Import ListNotations.
Local Open Scope string_scope.
Local Open Scope list_scope.

Set Warnings "-register-all".

(* ------------------------------------------------------------------ *)
(** ** Values *)

(** What [json.load] returns.  [JNull] is Python's [None]. *)
Inductive json : Type :=
| JNull
| JBool (b : bool)
| JInt (n : Z)                       (* a Python int *)
| JNum (q : Q)                       (* a finite Python float *)
| JNaN                               (* float("nan"), read from NaN *)
| JInf (negative : bool)             (* float("inf") and float("-inf") *)
| JStr (s : string)
| JArr (items : list json)
| JObj (fields : list (string * json)).

(** A Python [dict] with string keys: insertion-ordered, one entry per key. *)
Definition pydict (V : Type) := list (string * V).
Definition dict := pydict json.

(** [d.get(k)] before the default is applied. *)
Fixpoint dict_get {V} (k : string) (d : pydict V) : option V :=
  match d with
  | [] => None
  | (k', v) :: rest => if String.eqb k k' then Some v else dict_get k rest
  end.

(** [d[k] = v]: an existing key keeps its place, a new key goes last. *)
Fixpoint dict_set {V} (k : string) (v : V) (d : pydict V) : pydict V :=
  match d with
  | [] => [(k, v)]
  | (k', v') :: rest =>
      if String.eqb k k' then (k', v) :: rest else (k', v') :: dict_set k v rest
  end.

(** [d.get(k, default)] *)
Definition dict_get_default {V} (k : string) (default : V) (d : pydict V) : V :=
  match dict_get k d with
  | Some v => v
  | None => default
  end.

(** [name in names] on a list of strings. *)
Definition mem (name : string) (names : list string) : bool :=
  existsb (String.eqb name) names.

(** Strict comparison of rationals, [y > x]. *)
Definition Qgtb (y x : Q) : bool := negb (Qle_bool y x).

(* ------------------------------------------------------------------ *)
(** ** Exceptions *)

Inductive exn : Type :=
| CalledProcessError
| FileNotFoundError
| RequestException
| JSONDecodeError
| TypeError
| AttributeError
| NameError
| ValueError
| OverflowError
| UnicodeDecodeError
| OSError.

Definition exn_eqb (a b : exn) : bool :=
  match a, b with
  | CalledProcessError, CalledProcessError
  | FileNotFoundError, FileNotFoundError
  | RequestException, RequestException
  | JSONDecodeError, JSONDecodeError
  | TypeError, TypeError
  | AttributeError, AttributeError
  | NameError, NameError
  | ValueError, ValueError
  | OverflowError, OverflowError
  | UnicodeDecodeError, UnicodeDecodeError
  | OSError, OSError => true
  | _, _ => false
  end.

(** The outcome of evaluating an expression: a value or a raised exception. *)
Inductive result (A : Type) : Type :=
| Ret (a : A)
| Raise (e : exn).
Arguments Ret {A} a.
Arguments Raise {A} e.

Definition rbind {A B} (c : result A) (k : A -> result B) : result B :=
  match c with
  | Ret a => k a
  | Raise e => Raise e
  end.

Notation "'let*' x ':=' c 'in' k" := (rbind c (fun x => k))
  (at level 10, x name, c at level 100, k at level 200).

(** [try: body except Exception: return fallback] *)
Definition except_Exception {A} (fallback : A) (body : result A) : A :=
  match body with
  | Ret a => a
  | Raise _ => fallback
  end.

(* ------------------------------------------------------------------ *)
(** ** The activity file *)

(** A JSON file ([~/.claude/session_activity.json], the configuration
    file) as a reader finds it. *)
Inductive file : Type :=
| Missing                (* the path does not exist *)
| Empty                  (* zero bytes *)
| Garbled                (* other text that [json.load] rejects *)
| Unreadable (e : exn)   (* the path exists, but opening or decoding it
                            raises [e]: a directory, a file that may not
                            be read, bytes that are no text *)
| Holds (v : json).      (* text that [json.load] reads as [v] *)

Definition exists_ (f : file) : bool :=
  match f with
  | Missing => false
  | _ => true
  end.

(** [with open(path, "r") as f: json.load(f)] *)
Definition json_load (f : file) : result json :=
  match f with
  | Holds v => Ret v
  | Missing => Raise FileNotFoundError
  | Empty | Garbled => Raise JSONDecodeError
  | Unreadable e => Raise e
  end.

(** [data.get(key)]: only a dict has the method. *)
Definition py_get (data : json) (key : string) : result json :=
  match data with
  | JObj d => Ret (dict_get_default key JNull d)
  | _ => Raise AttributeError
  end.

(** [data[key] = value]: lists want integer indices, scalars have no item
    assignment. *)
Definition py_setitem (data : json) (key : string) (value : json) : result json :=
  match data with
  | JObj d => Ret (JObj (dict_set key value d))
  | _ => Raise TypeError
  end.

(** A Python float. *)
Inductive pyfloat : Type :=
| Finite (q : Q)
| NaN
| Inf (negative : bool).

(** The integers [float] converts: the conversion rounds to the nearest
    float and raises [OverflowError] when that is beyond the largest one. *)
Definition fits_float (n : Z) : bool :=
  (Z.abs n <? 2 ^ 1024 - 2 ^ 970)%Z.
Arguments fits_float : simpl never.

(** The float a value becomes as the operand of a float: [True] and
    [False] count as 1 and 0, an integer is converted, and anything that
    is no number is a [TypeError]. *)
Definition to_float (v : json) : result pyfloat :=
  match v with
  | JNum t => Ret (Finite t)
  | JBool b => Ret (Finite (if b then 1 else 0))
  | JInt n => if fits_float n then Ret (Finite (inject_Z n)) else Raise OverflowError
  | JNaN => Ret NaN
  | JInf negative => Ret (Inf negative)
  | _ => Raise TypeError
  end.

(** [now - last], for the finite float [now] that [time.time()] returned. *)
Definition py_sub (now : Q) (last : json) : result pyfloat :=
  let* t := to_float last in
  Ret (match t with
       | Finite t => Finite (now - t)
       | NaN => NaN
       | Inf negative => Inf (negb negative)
       end).

(** [age > threshold] for an integer threshold: the comparison is exact,
    and false on not-a-number. *)
Definition py_gt (age : pyfloat) (threshold : Z) : bool :=
  match age with
  | Finite a => Qgtb a (inject_Z threshold)
  | NaN => false
  | Inf negative => negb negative
  end.

Definition is_None (v : json) : bool :=
  match v with
  | JNull => true
  | _ => false
  end.

Module SessionTracker.

(** Lines 132-135: the mapping read back, empty when there is no file. *)
Definition load (f : file) : result json :=
  if exists_ f then json_load f else Ret (JObj []).

(** Lines 132-137: the dictionary [mark_activity] is about to write. *)
Definition updated (session_id : string) (now : Q) (f : file) : result json :=
  let* activity_data := load f in
  py_setitem activity_data session_id (JNum now).

(** The file once [mark_activity] has returned: rewritten with the new
    dictionary (lines 139-140) when nothing was raised before, and as it
    was otherwise. *)
Definition mark_activity (session_id : string) (now : Q) (f : file) : file :=
  match updated session_id now f with
  | Ret activity_data => Holds activity_data
  | Raise _ => f           (* except Exception: pass *)
  end.

Definition is_session_idle
  (f : file) (session_id : string) (idle_threshold : Z) (now : Q) : bool :=
  except_Exception true
    (if negb (exists_ f) then Ret true else
     let* activity_data := json_load f in
     let* last_activity := py_get activity_data session_id in
     if is_None last_activity then Ret true else
     let* age := py_sub now last_activity in
     Ret (py_gt age idle_threshold)).

End SessionTracker.

(* ------------------------------------------------------------------ *)
(** ** Effects *)

(** Calls that leave the process. *)
Inductive call : Type :=
| RunTerminalNotifier (title message : string)
    (* subprocess.run(["terminal-notifier", "-title", title, "-message",
       message, "-sender", ...], check=True) *)
| RunOsascript (title message : string)
    (* subprocess.run(["osascript", "-e", display-notification script]) *)
| RunOsascriptProbe
    (* subprocess.run(["osascript", "-e", ""]) *)
| Get (server : json)
    (* requests.get(server, timeout=5) *)
| Post (server topic : json) (title : string) (priority tags : json)
       (body : string)
    (* requests.post(server/topic, data=body, headers={Title, Priority,
       Tags}, timeout=10) *)
| MakeStoreDir.
    (* (Path.home() / ".claude").mkdir(exist_ok=True); the code of the
       answer has no meaning *)

(** How a call ends: with a return code (a process) or a status code (an
    HTTP exchange), or with an exception raised by the library. *)
Inductive outcome : Type :=
| Code (n : Z)
| Fails (e : exn).

Record delayed_task : Type := {
  task_title : string;
  task_message : string;
  task_session_id : string;
  task_delay_seconds : Z;
  task_tiers : list (string * dict)
}.

Inductive stream : Type := Stdout | Stderr.

Inductive text : Type :=
| TierNotFound (tier : string)
| TierDisabled (tier : string)
| TierNotAvailable (tier : string)
| NoImmediateTiers
| NotificationSent (title message : string)
| FailedToSend
| InvalidJsonInput
| ErrorText (e : exn).

Inductive effect : Type :=
| Called (c : call) (o : outcome)
| Started (t : delayed_task)          (* subprocess.Popen([script]) *)
| Printed (s : stream) (m : text).

(** The environment answers a call knowing everything that happened before. *)
Definition World := list effect -> call -> outcome.

Record state : Type := {
  log : list effect;
  store : file
}.

Definition M (A : Type) : Type := World -> state -> result A * state.

Definition ret {A} (a : A) : M A := fun _ st => (Ret a, st).

Definition raise {A} (e : exn) : M A := fun _ st => (Raise e, st).

Definition bind {A B} (c : M A) (k : A -> M B) : M B :=
  fun w st =>
    match c w st with
    | (Ret a, st') => k a w st'
    | (Raise e, st') => (Raise e, st')
    end.

Notation "x <- c ;; k" := (bind c (fun x => k))
  (at level 100, c at next level, right associativity).
Notation "c ;; k" := (bind c (fun _ => k))
  (at level 100, right associativity).

(** [try: body except ...]: [handler e] is [None] when no clause matches. *)
Definition try_ {A} (body : M A) (handler : exn -> option (M A)) : M A :=
  fun w st =>
    match body w st with
    | (Ret a, st') => (Ret a, st')
    | (Raise e, st') =>
        match handler e with
        | Some h => h w st'
        | None => (Raise e, st')
        end
    end.

(** [except (e1, e2, ...): h] *)
Definition except_ {A} (classes : list exn) (h : M A) : exn -> option (M A) :=
  fun e => if existsb (exn_eqb e) classes then Some h else None.

(** [except Exception: h] and the bare [except: h]. *)
Definition except_all {A} (h : M A) : exn -> option (M A) :=
  fun _ => Some h.

Definition emit (e : effect) : M unit :=
  fun _ st => (Ret tt, {| log := log st ++ [e]; store := store st |}).

Definition perform (c : call) : M outcome :=
  fun w st =>
    let o := w (log st) c in
    (Ret o, {| log := log st ++ [Called c o]; store := store st |}).

(** [subprocess.run(cmd, check=True, capture_output=True)] *)
Definition subprocess_run (c : call) : M unit :=
  o <- perform c ;;
  match o with
  | Code 0 => ret tt
  | Code _ => raise CalledProcessError
  | Fails e => raise e
  end.

(** [requests.get] and [requests.post]: the status code of the response. *)
Definition requests (c : call) : M Z :=
  o <- perform c ;;
  match o with
  | Code status => ret status
  | Fails e => raise e
  end.

(** [for x in l: acc = body(acc, x)] *)
Fixpoint for_each {A S} (l : list A) (acc : S) (body : S -> A -> M S) : M S :=
  match l with
  | [] => ret acc
  | x :: rest => acc' <- body acc x ;; for_each rest acc' body
  end.

(* ------------------------------------------------------------------ *)
(** ** Configuration *)

Record NotificationConfig : Type := {
  enabled_tiers : list string;
  default_tier : string;
  tier_configs : pydict dict;
  delayed_tiers : list string;
  delay_seconds : Z
}.

(** [NotificationConfig(enabled_tiers=["macos", "ntfy"], default_tier="macos")]
    after [__post_init__]. *)
Definition default_config : NotificationConfig := {|
  enabled_tiers := ["macos"; "ntfy"];
  default_tier := "macos";
  tier_configs := [];
  delayed_tiers := ["ntfy"];
  delay_seconds := 30
|}.

(* ------------------------------------------------------------------ *)
(** ** Notification tiers *)

Module NotificationTier.
Record t : Type := {
  send_notification : string -> string -> M bool;
  is_available : M bool
}.
End NotificationTier.

Module MacOSNotificationTier.

Definition send_notification (title message : string) : M bool :=
  try_ (subprocess_run (RunTerminalNotifier title message) ;; ret true)
    (except_ [CalledProcessError]
       (try_ (subprocess_run (RunOsascript title message) ;; ret true)
          (except_ [CalledProcessError] (ret false)))).

Definition is_available : M bool :=
  try_ (subprocess_run RunOsascriptProbe ;; ret true)
    (except_ [CalledProcessError; FileNotFoundError] (ret false)).

Definition new : NotificationTier.t := {|
  NotificationTier.send_notification := send_notification;
  NotificationTier.is_available := is_available
|}.

End MacOSNotificationTier.

Module NtfyNotificationTier.

Record self : Type := {
  topic : json;
  server : json;
  priority : json;
  tags : json
}.

Definition init (config : dict) : self := {|
  topic := dict_get_default "topic" (JStr "claude-code-notifications") config;
  server := dict_get_default "server" (JStr "https://ntfy.sh") config;
  priority := dict_get_default "priority" (JStr "default") config;
  tags := dict_get_default "tags" (JStr "claude") config
|}.

Definition send_notification (s : self) (title message : string) : M bool :=
  try_ (status <- requests
          (Post (server s) (topic s) title (priority s) (tags s) message) ;;
        ret (Z.eqb status 200))
    (except_ [RequestException] (ret false)).

Definition is_available (s : self) : M bool :=
  try_ (status <- requests (Get (server s)) ;; ret (Z.eqb status 200))
    (except_ [RequestException] (ret false)).

Definition new (config : dict) : NotificationTier.t := {|
  NotificationTier.send_notification := send_notification (init config);
  NotificationTier.is_available := is_available (init config)
|}.

End NtfyNotificationTier.

(* ------------------------------------------------------------------ *)
(** ** The router *)

(** Truth value of an optional string: [None] and the empty string are false. *)
Definition truthy (s : option string) : bool :=
  match s with
  | Some s => negb (String.eqb s "")
  | None => false
  end.

(** Truth value of a list. *)
Definition nonempty {A} (l : list A) : bool :=
  match l with
  | [] => false
  | _ :: _ => true
  end.

Module TieredNotifier.

Record self : Type := {
  config : NotificationConfig;
  tiers : pydict NotificationTier.t
}.

(** [__init__], with the configuration [_load_config] returned. *)
Definition init (cfg : NotificationConfig) : self := {|
  config := cfg;
  tiers :=
    [("macos", MacOSNotificationTier.new);
     ("ntfy", NtfyNotificationTier.new (dict_get_default "ntfy" [] (tier_configs cfg)))]
|}.

Definition send_notification
  (s : self) (title message : string) (tier : option string) : M bool :=
  let tier :=
    match tier with
    | Some name => name
    | None => default_tier (config s)
    end in
  match dict_get tier (tiers s) with
  | None => emit (Printed Stderr (TierNotFound tier)) ;; ret false
  | Some notification_tier =>
      if negb (mem tier (enabled_tiers (config s))) then
        emit (Printed Stderr (TierDisabled tier)) ;; ret false
      else
        available <- NotificationTier.is_available notification_tier ;;
        if negb available then
          emit (Printed Stderr (TierNotAvailable tier)) ;; ret false
        else NotificationTier.send_notification notification_tier title message
  end.

(** The snapshot [json.dumps] writes into the script: every configured
    delayed tier with its settings. *)
Definition snapshot (cfg : NotificationConfig) : list (string * dict) :=
  map (fun name => (name, dict_get_default name [] (tier_configs cfg)))
      (delayed_tiers cfg).

Definition _schedule_delayed_notifications
  (s : self) (title message session_id : string) : M unit :=
  emit (Started {|
    task_title := title;
    task_message := message;
    task_session_id := session_id;
    task_delay_seconds := delay_seconds (config s);
    task_tiers := snapshot (config s)
  |}).

Definition immediate_tiers (cfg : NotificationConfig) : list string :=
  filter (fun t => negb (mem t (delayed_tiers cfg))) (enabled_tiers cfg).

(** One turn of the loop over the immediate tiers. *)
Definition immediate_turn
  (s : self) (title message : string) (success : bool) (tier_name : string)
  : M bool :=
  match dict_get tier_name (tiers s) with
  | Some tier =>
      available <- NotificationTier.is_available tier ;;
      if available then
        sent <- NotificationTier.send_notification tier title message ;;
        ret (if sent then true else success)
      else ret success
  | None => ret success
  end.

Definition send_tiered_notification
  (s : self) (title message : string) (session_id : option string) : M bool :=
  success <- for_each (immediate_tiers (config s)) false
               (immediate_turn s title message) ;;
  (match session_id with
   | Some sid =>
       if truthy session_id && nonempty (delayed_tiers (config s))
       then _schedule_delayed_notifications s title message sid
       else ret tt
   | None => ret tt
   end) ;;
  (if negb success then emit (Printed Stderr NoImmediateTiers) else ret tt) ;;
  ret success.

End TieredNotifier.

(* ------------------------------------------------------------------ *)
(** ** The delayed task *)

(** The script that [_schedule_delayed_notifications] writes and starts.
    The template is an f-string: the title, the message and the session
    identifier are spliced as raw text between double quotes, the delay
    as its decimal digits and the snapshot of the settings as the text
    [json.dumps] gives.  The interpreter then reads that text as Python
    source; the interpreter and the modules the script imports are taken
    to be installed. *)

(** A character that a string literal in double quotes reads as itself:
    printable ASCII other than the double quote and the backslash. *)
Definition plain_char (c : ascii) : bool :=
  let n := nat_of_ascii c in
  (32 <=? n)%nat && (n <=? 126)%nat && negb (n =? 34)%nat && negb (n =? 92)%nat.

Fixpoint plain (s : string) : bool :=
  match s with
  | EmptyString => true
  | String c rest => plain_char c && plain rest
  end.

(** ASCII text: [json.dumps] writes it with escapes that Python reads
    back as the same characters. *)
Fixpoint ascii_text (s : string) : bool :=
  match s with
  | EmptyString => true
  | String c rest => (nat_of_ascii c <? 128)%nat && ascii_text rest
  end.

(** A setting whose JSON text is a single token: a string of ASCII
    characters, a number, or one of [true], [false] and [null].  An
    integer is kept below the length at which Python refuses to print or
    read its digits. *)
Definition scalar (v : json) : bool :=
  match v with
  | JStr s => ascii_text s
  | JInt n => (Z.abs n <? 10 ^ 4300)%Z
  | JArr _ | JObj _ => false
  | JNull | JBool _ | JNum _ | JNaN | JInf _ => true
  end.

Definition plain_settings (tier_config : string * dict) : bool :=
  ascii_text (fst tier_config) &&
  forallb (fun kv => ascii_text (fst kv) && scalar (snd kv)) (snd tier_config).

(** The JSON text of the snapshot is read back as a Python expression,
    where [true], [false], [null], [NaN] and [Infinity] are unbound
    names. *)
Fixpoint python_literal (v : json) : bool :=
  match v with
  | JNull | JBool _ | JNaN | JInf _ => false
  | JInt _ | JNum _ | JStr _ => true
  | JArr items => forallb python_literal items
  | JObj fields => forallb (fun kv => python_literal (snd kv)) fields
  end.

(** Evaluating the expression at line 281. *)
Definition eval_snapshot (tiers : list (string * dict))
  : M (list (string * dict)) :=
  if forallb (fun tc => python_literal (JObj (snd tc))) tiers
  then ret tiers
  else raise NameError.

Module DelayScript.

(** The program the interpreter reads from the generated file: the
    values of its literals. *)
Record script : Type := {
  script_title : string;                 (* the literal at line 291 *)
  script_message : string;               (* the literal at line 296 *)
  script_session_id : string;            (* the literal at line 272 *)
  script_delay : Z;                      (* lines 261 and 274 *)
  script_tiers : list (string * dict)    (* the expression at line 281 *)
}.

(** The program a task is turned into.  It is given for the tasks whose
    text the template surely reads as itself: title, message and session
    identifier are plain, the delay has few enough digits, and the
    snapshot consists of ASCII names and scalar settings.  For any other
    task the generated text need not be the program of the template (a
    quote ends the literal early, a backslash starts an escape, a line
    break or a character outside the encoding is an error), and no
    program is given. *)
Definition parse (t : delayed_task) : option script :=
  if plain (task_title t) && plain (task_message t) &&
     plain (task_session_id t) &&
     (Z.abs (task_delay_seconds t) <? 10 ^ 4300)%Z &&
     forallb plain_settings (task_tiers t)
  then Some {| script_title := task_title t;
               script_message := task_message t;
               script_session_id := task_session_id t;
               script_delay := task_delay_seconds t;
               script_tiers := task_tiers t |}
  else None.

(** Lines 264-276 of the template. *)
Definition is_idle (p : script) (f : file) (now : Q) : bool :=
  except_Exception true
    (if exists_ f then
       let* activity_data := json_load f in
       let* last_activity := py_get activity_data (script_session_id p) in
       if negb (is_None last_activity) then
         let* age := py_sub now last_activity in
         Ret (py_gt age (script_delay p))
       else Ret true
     else Ret true).

(** The POST the script makes for one entry of the snapshot. *)
Definition post_for (p : script) (config : dict) : call :=
  Post (dict_get_default "server" (JStr "https://ntfy.sh") config)
       (dict_get_default "topic" (JStr "claude-code-notifications") config)
       (script_title p)
       (dict_get_default "priority" (JStr "default") config)
       (dict_get_default "tags" (JStr "claude") config)
       (script_message p).

(** The body of the [for], lines 282-296. *)
Definition turn (p : script) (_ : unit) (tier_config : string * dict)
  : M unit :=
  let '(tier_name, config) := tier_config in
  if String.eqb tier_name "ntfy" then
    _ <- requests (post_for p config) ;; ret tt
  else ret tt.

(** Lines 279-298: the sends, once the session has been judged. *)
Definition dispatch (p : script) (idle : bool) : M unit :=
  if idle then
    try_ (tiers <- eval_snapshot (script_tiers p) ;;
          for_each tiers tt (turn p))
      (except_all (ret tt))
  else ret tt.

(** [time.sleep(delay)]: the length is converted to a count of
    nanoseconds in 64 bits, which overflows beyond 9223372036 seconds
    either way, and a negative length is rejected. *)
Definition sleep (delay : Z) : M unit :=
  if (9223372036 <? Z.abs delay)%Z then raise OverflowError
  else if (delay <? 0)%Z then raise ValueError
  else ret tt.

(** The whole program.  [now] is the time when the sleep ends and the
    store is the activity file at that moment. *)
Definition exec (p : script) (now : Q) : M unit :=
  sleep (script_delay p) ;;
  (fun w st => dispatch p (is_idle p (store st) now) w st).

(** A run of the script of a task, when its text is the program of the
    template. *)
Definition run (t : delayed_task) (now : Q) (w : World) (st : state)
  : option (result unit * state) :=
  option_map (fun p => exec p now w st) (parse t).

End DelayScript.

(* ------------------------------------------------------------------ *)
(** ** The entry point *)

(** The object read from standard input, through the lookups [main] makes. *)
Record hook_event : Type := {
  has_tool_name : bool;               (* "tool_name" in input_data *)
  has_stop_hook_active : bool;        (* "stop_hook_active" in input_data *)
  get_title : option string;          (* input_data.get("title") *)
  get_message : option string;        (* input_data.get("message") *)
  get_session_id : option string      (* input_data.get("session_id") *)
}.

(** JSON values that are not objects. *)
Inductive non_object : Type :=
| NNull
| NBool (b : bool)
| NInt (n : Z)
| NNum (q : Q)
| NNaN
| NInf (negative : bool)
| NStr (s : string)
| NArr (items : list json).

Inductive hook_input : Type :=
| NotText (e : exn)              (* reading standard input raises [e] *)
| NotJson                        (* json.load raises JSONDecodeError *)
| NotObject (v : non_object)
| Object (input_data : hook_event).

(** What [main] raises on a value that is not an object: the [in] test
    fails on a scalar, [.get] on a string or a list. *)
Definition non_object_error (v : non_object) : exn :=
  match v with
  | NStr _ | NArr _ => AttributeError
  | _ => TypeError
  end.

Definition default_to (d : string) (v : option string) : string :=
  match v with
  | Some s => s
  | None => d
  end.

(** [SessionTracker()], lines 125-127: the home directory is looked up
    and the directory of the store is created unless it exists; an error
    of either is not caught. *)
Definition SessionTracker_init : M unit :=
  o <- perform MakeStoreDir ;;
  match o with
  | Code _ => ret tt
  | Fails e => raise e
  end.

(** [tracker = SessionTracker(); tracker.mark_activity(session_id)] *)
Definition track (session_id : string) (now : Q) : M unit :=
  SessionTracker_init ;;
  (fun _ st =>
     (Ret tt, {| log := log st;
                 store := SessionTracker.mark_activity session_id now (store st) |})).

(** The body of the [try]; the value is the status given to [sys.exit]. *)
Definition main_body (cfg : NotificationConfig) (now : Q) (input : hook_input)
  : M Z :=
  match input with
  | NotText e => raise e
  | NotJson => raise JSONDecodeError
  | NotObject v => raise (non_object_error v)
  | Object input_data =>
      if has_tool_name input_data || has_stop_hook_active input_data then
        (match get_session_id input_data with
         | Some session_id =>
             if truthy (Some session_id) then track session_id now else ret tt
         | None => ret tt
         end) ;;
        ret 0%Z
      else
        let title := default_to "Claude Code" (get_title input_data) in
        let message := default_to "Notification" (get_message input_data) in
        let session_id := get_session_id input_data in
        let notifier := TieredNotifier.init cfg in
        success <- TieredNotifier.send_tiered_notification
                     notifier title message session_id ;;
        if success then
          emit (Printed Stdout (NotificationSent title message)) ;; ret 0%Z
        else
          emit (Printed Stderr FailedToSend) ;; ret 1%Z
  end.

Definition main_handlers (e : exn) : option (M Z) :=
  match e with
  | JSONDecodeError => Some (emit (Printed Stderr InvalidJsonInput) ;; ret 1%Z)
  | _ => Some (emit (Printed Stderr (ErrorText e)) ;; ret 1%Z)
  end.

(** A run of the program: exit status and final state.  An exception that
    reached the top would also end the process with status 1. *)
Definition main
  (cfg : NotificationConfig) (now : Q) (input : hook_input)
  (w : World) (f : file) : Z * state :=
  match try_ (main_body cfg now input) main_handlers w {| log := []; store := f |} with
  | (Ret status, st) => (status, st)
  | (Raise _, st) => (1%Z, st)
  end.

(* ------------------------------------------------------------------ *)
(** ** Loading the configuration and registering tiers *)

(** A [NotificationConfig] instance as the dataclass holds it: nothing
    checks the annotations, so every field is the value the JSON object
    gave for it. *)
Module Dataclass.

Record t : Type := {
  enabled_tiers : json;
  default_tier : json;
  tier_configs : json;
  delayed_tiers : json;
  delay_seconds : json
}.

Definition field_names : list string :=
  ["enabled_tiers"; "default_tier"; "tier_configs"; "delayed_tiers";
   "delay_seconds"].

Definition __post_init__ (c : t) : t := {|
  enabled_tiers := enabled_tiers c;
  default_tier := default_tier c;
  tier_configs := if is_None (tier_configs c) then JObj [] else tier_configs c;
  delayed_tiers :=
    if is_None (delayed_tiers c) then JArr [JStr "ntfy"] else delayed_tiers c;
  delay_seconds := delay_seconds c
|}.

(** The constructor called on the unpacked [config_data]: a [TypeError]
    when the value is no mapping, when a key is no field, or when
    [enabled_tiers] is not given. *)
Definition new (config_data : json) : result t :=
  match config_data with
  | JObj d =>
      if forallb (fun kv => mem (fst kv) field_names) d then
        match dict_get "enabled_tiers" d with
        | Some enabled =>
            Ret (__post_init__ {|
              enabled_tiers := enabled;
              default_tier := dict_get_default "default_tier" (JStr "macos") d;
              tier_configs := dict_get_default "tier_configs" JNull d;
              delayed_tiers := dict_get_default "delayed_tiers" JNull d;
              delay_seconds := dict_get_default "delay_seconds" (JInt 30) d
            |})
        | None => Raise TypeError
        end
      else Raise TypeError
  | _ => Raise TypeError
  end.

(** [NotificationConfig(enabled_tiers=["macos", "ntfy"], default_tier="macos")] *)
Definition default : t :=
  __post_init__ {|
    enabled_tiers := JArr [JStr "macos"; JStr "ntfy"];
    default_tier := JStr "macos";
    tier_configs := JNull;
    delayed_tiers := JNull;
    delay_seconds := JInt 30
  |}.

End Dataclass.

(** [TieredNotifier._load_config] on the configuration file. *)
Definition _load_config (config_file : file) : result Dataclass.t :=
  match
    (if exists_ config_file then
       let* config_data := json_load config_file in
       let* config := Dataclass.new config_data in
       Ret (Some config)
     else Ret None)
  with
  | Ret (Some config) => Ret config
  | Ret None => Ret Dataclass.default
  | Raise e =>
      if existsb (exn_eqb e) [JSONDecodeError; TypeError]
      then Ret Dataclass.default
      else Raise e
  end.

(** [TieredNotifier.register_tier] *)
Definition register_tier
  (s : TieredNotifier.self) (name : string) (tier : NotificationTier.t)
  : TieredNotifier.self := {|
  TieredNotifier.config := TieredNotifier.config s;
  TieredNotifier.tiers := dict_set name tier (TieredNotifier.tiers s)
|}.

(* ------------------------------------------------------------------ *)
(** ** The wrapper script *)

(** [tiered_notifier_wrapper.py].  [child] is how [subprocess.run] of the
    [uv run ... tiered_notifier.py] command ended; without [check] a
    return code raises nothing.  The value is the exit status of the
    wrapper, which keeps the low eight bits of what [sys.exit] is given,
    and the exception its diagnostic reports, if any. *)
Module Wrapper.

Definition sys_exit (code : Z) : Z := (code mod 256)%Z.

Definition main (child : outcome) : Z * option exn :=
  match child with
  | Code returncode => (sys_exit returncode, None)
  | Fails e => (sys_exit 1, Some e)
  end.

End Wrapper.

(* ------------------------------------------------------------------ *)
(** * Vocabulary of the properties *)

(** The value the store records for a session: the file holds an object
    and the object has the key. *)
Definition entry (f : file) (session_id : string) : option json :=
  match f with
  | Holds (JObj d) => dict_get session_id d
  | _ => None
  end.

(** The files [mark_activity] can update: none yet, or one holding an object. *)
Definition writable (f : file) : Prop :=
  f = Missing \/ exists d, f = Holds (JObj d).

(** The verdict of the idle check on a recorded value: idle when the
    age cannot be computed. *)
Definition verdict (now : Q) (threshold : Z) (v : json) : bool :=
  match py_sub now v with
  | Ret age => py_gt age threshold
  | Raise _ => true
  end.



(** The state after [delta] more effects. *)
Definition ext (st : state) (delta : list effect) : state :=
  {| log := log st ++ delta; store := store st |}.

Definition is_called (e : effect) : bool :=
  match e with
  | Called _ _ => true
  | _ => false
  end.

Definition is_started (e : effect) : bool :=
  match e with
  | Started _ => true
  | _ => false
  end.

(** A send that the other side confirmed: a helper that exited with
    code 0, or a POST answered with status 200. *)
Definition delivered (e : effect) : bool :=
  match e with
  | Called (RunTerminalNotifier _ _) (Code n) => Z.eqb n 0
  | Called (RunOsascript _ _) (Code n) => Z.eqb n 0
  | Called (Post _ _ _ _ _ _) (Code n) => Z.eqb n 200
  | _ => false
  end.

(** A send that was attempted, whatever came of it. *)
Definition is_send (e : effect) : bool :=
  match e with
  | Called (RunTerminalNotifier _ _) _
  | Called (RunOsascript _ _) _
  | Called (Post _ _ _ _ _ _) _ => true
  | _ => false
  end.

(** What the router relies on from a tier: both methods log only calls,
    [send_notification] answers true exactly when a send was confirmed,
    and [is_available] sends nothing. *)
Definition tier_ok (t : NotificationTier.t) : Prop :=
  (forall title message w st, exists delta r,
     NotificationTier.send_notification t title message w st = (r, ext st delta) /\
     forallb is_called delta = true /\
     (existsb delivered delta = true <-> r = Ret true)) /\
  (forall w st, exists delta r,
     NotificationTier.is_available t w st = (r, ext st delta) /\
     forallb is_called delta = true /\
     existsb is_send delta = false).

Definition registry_ok (s : TieredNotifier.self) : Prop :=
  forall name t, dict_get name (TieredNotifier.tiers s) = Some t -> tier_ok t.

(** The task the router hands to the scheduler, if any. *)
Definition handoff
  (s : TieredNotifier.self) (title message : string)
  (session_id : option string) : list effect :=
  match session_id with
  | Some sid =>
      if truthy session_id && nonempty (delayed_tiers (TieredNotifier.config s))
      then [Started {|
              task_title := title;
              task_message := message;
              task_session_id := sid;
              task_delay_seconds := delay_seconds (TieredNotifier.config s);
              task_tiers := TieredNotifier.snapshot (TieredNotifier.config s)
            |}]
      else []
  | None => []
  end.

Definition warning (success : bool) : list effect :=
  if success then [] else [Printed Stderr NoImmediateTiers].

Definition start (f : file) : state := {| log := []; store := f |}.

Definition with_session_id (ev : hook_event) (session_id : option string)
  : hook_event := {|
  has_tool_name := has_tool_name ev;
  has_stop_hook_active := has_stop_hook_active ev;
  get_title := get_title ev;
  get_message := get_message ev;
  get_session_id := session_id
|}.

(** The store after an activity event whose tracker could be made. *)
Definition tracked (session_id : option string) (now : Q) (f : file) : file :=
  match session_id with
  | Some sid =>
      if truthy session_id then SessionTracker.mark_activity sid now f else f
  | None => f
  end.

(** A host on which every helper and the push server work. *)
Definition healthy : World :=
  fun _ c =>
    match c with
    | Get _ | Post _ _ _ _ _ _ => Code 200
    | _ => Code 0
    end.

(** The same host without [terminal-notifier] installed. *)
Definition no_terminal_notifier : World :=
  fun _ c =>
    match c with
    | RunTerminalNotifier _ _ => Fails FileNotFoundError
    | Get _ | Post _ _ _ _ _ _ => Code 200
    | _ => Code 0
    end.

(** A host whose push server cannot be reached when the task wakes up. *)
Definition unreachable_server : World :=
  fun _ c =>
    match c with
    | Get _ | Post _ _ _ _ _ _ => Fails RequestException
    | _ => Code 0
    end.

(** Only the desktop tier is enabled; the delayed tiers are the default. *)
Definition desktop_only : NotificationConfig := {|
  enabled_tiers := ["macos"];
  default_tier := "macos";
  tier_configs := [];
  delayed_tiers := ["ntfy"];
  delay_seconds := 30
|}.

(** Both tiers fire at once, the push tier first. *)
Definition both_immediate : NotificationConfig := {|
  enabled_tiers := ["ntfy"; "macos"];
  default_tier := "macos";
  tier_configs := [];
  delayed_tiers := [];
  delay_seconds := 30
|}.


Definition default_post (title message : string) : call :=
  Post (JStr "https://ntfy.sh") (JStr "claude-code-notifications") title
       (JStr "default") (JStr "claude") message.

(** The calls in a log, oldest first. *)
Definition calls (delta : list effect) : list call :=
  flat_map (fun e => match e with Called c _ => [c] | _ => [] end) delta.

(** A call that ended with an exception. *)
Definition raised (e : effect) : bool :=
  match e with
  | Called _ (Fails _) => true
  | _ => false
  end.

Definition is_ntfy (tier_config : string * dict) : bool :=
  String.eqb (fst tier_config) "ntfy".

(** The POSTs the snapshot asks for: one per entry named [ntfy], in the
    configured order. *)
Definition expected_posts (p : DelayScript.script) (tiers : list (string * dict))
  : list call :=
  map (fun tc => DelayScript.post_for p (snd tc)) (filter is_ntfy tiers).

(** Three delayed tiers: the desktop tier and the push tier twice. *)
Definition three_delayed : NotificationConfig := {|
  enabled_tiers := ["macos"; "ntfy"];
  default_tier := "macos";
  tier_configs := [];
  delayed_tiers := ["macos"; "ntfy"; "ntfy"];
  delay_seconds := 30
|}.

Definition three_delayed_task : delayed_task := {|
  task_title := "Build";
  task_message := "done";
  task_session_id := "s1";
  task_delay_seconds := delay_seconds three_delayed;
  task_tiers := TieredNotifier.snapshot three_delayed
|}.

(** The program read from the script of that task. *)
Definition three_delayed_script : DelayScript.script := {|
  DelayScript.script_title := "Build";
  DelayScript.script_message := "done";
  DelayScript.script_session_id := "s1";
  DelayScript.script_delay := 30;
  DelayScript.script_tiers := [("macos", []); ("ntfy", []); ("ntfy", [])]
|}.



(** The tier a call belongs to; the empty name for a call of no tier. *)
Definition tier_of_call (c : call) : string :=
  match c with
  | RunTerminalNotifier _ _ | RunOsascript _ _ | RunOsascriptProbe => "macos"
  | Get _ | Post _ _ _ _ _ _ => "ntfy"
  | MakeStoreDir => ""
  end.

(** Every call in the log belongs to one of the named tiers. *)
Definition called_by (names : list string) (e : effect) : bool :=
  match e with
  | Called c _ => mem (tier_of_call c) names
  | _ => true
  end.

(** A probe that found its tier available. *)
Definition probe_ok (e : effect) : bool :=
  match e with
  | Called RunOsascriptProbe (Code n) => Z.eqb n 0
  | Called (Get _) (Code n) => Z.eqb n 200
  | _ => false
  end.

(** A probe, whatever came of it. *)
Definition is_probe (e : effect) : bool :=
  match e with
  | Called RunOsascriptProbe _ | Called (Get _) _ => true
  | _ => false
  end.

Definition tier_of (e : effect) : string :=
  match e with
  | Called c _ => tier_of_call c
  | _ => ""
  end.

(** The tier found available by the latest probe, if it succeeded. *)
Definition probed (available : option string) (e : effect) : option string :=
  if is_probe e then (if probe_ok e then Some (tier_of e) else None)
  else available.

Definition available_after (available : option string) (delta : list effect)
  : option string :=
  fold_left probed delta available.

(** Every send of the log goes through the tier that the latest probe
    before it found available. *)
Fixpoint sends_follow_probes (available : option string) (delta : list effect)
  : bool :=
  match delta with
  | [] => true
  | e :: rest =>
      (if is_send e then
         match available with
         | Some name => String.eqb (tier_of e) name
         | None => false
         end
       else true) &&
      sends_follow_probes (probed available e) rest
  end.


(** The tasks started in a log, oldest first. *)
Definition started_tasks (delta : list effect) : list delayed_task :=
  flat_map (fun e => match e with Started t => [t] | _ => [] end) delta.

(** The request of the push tier for one notification. *)
Definition push_request
  (s : NtfyNotificationTier.self) (title message : string) : call :=
  Post (NtfyNotificationTier.server s) (NtfyNotificationTier.topic s) title
       (NtfyNotificationTier.priority s) (NtfyNotificationTier.tags s) message.

(** A configuration file [_load_config] takes its values from: an object
    whose keys are all fields and which gives [enabled_tiers]. *)
Definition accepted (config_file : file) : bool :=
  match config_file with
  | Holds (JObj d) =>
      forallb (fun kv => mem (fst kv) Dataclass.field_names) d &&
      match dict_get "enabled_tiers" d with
      | Some _ => true
      | None => false
      end
  | _ => false
  end.

(** The errors of reading the file that [_load_config] catches. *)
Definition caught (e : exn) : bool :=
  existsb (exn_eqb e) [JSONDecodeError; TypeError].

(** The typed view of a dataclass instance: defined when every field has
    the type its annotation names. *)
Fixpoint as_strings (items : list json) : option (list string) :=
  match items with
  | [] => Some []
  | JStr s :: rest => option_map (cons s) (as_strings rest)
  | _ :: _ => None
  end.

Fixpoint as_dicts (fields : list (string * json)) : option (pydict dict) :=
  match fields with
  | [] => Some []
  | (k, JObj d) :: rest => option_map (cons (k, d)) (as_dicts rest)
  | _ :: _ => None
  end.

Definition as_config (c : Dataclass.t) : option NotificationConfig :=
  match Dataclass.enabled_tiers c, Dataclass.default_tier c,
        Dataclass.tier_configs c, Dataclass.delayed_tiers c,
        Dataclass.delay_seconds c with
  | JArr enabled, JStr default, JObj configs, JArr delayed, JInt n =>
      match as_strings enabled, as_dicts configs, as_strings delayed with
      | Some enabled, Some configs, Some delayed =>
          Some {| enabled_tiers := enabled;
                  default_tier := default;
                  tier_configs := configs;
                  delayed_tiers := delayed;
                  delay_seconds := n |}
      | _, _, _ => None
      end
  | _, _, _, _, _ => None
  end.

(** A tier that is always available and never delivers: it calls nothing
    and answers false. *)
Definition silent_tier : NotificationTier.t := {|
  NotificationTier.send_notification := fun _ _ => ret false;
  NotificationTier.is_available := ret true
|}.

(** What the calls of a tier registered under [name] look like: both
    methods log only calls of that tier, [send_notification] answers true
    exactly when a send was confirmed and never probes, [is_available]
    never sends and answers true only after a probe that succeeded, the
    last one it made. *)
Definition tier_footprint (name : string) (t : NotificationTier.t) : Prop :=
  (forall title message w st, exists delta r,
     NotificationTier.send_notification t title message w st = (r, ext st delta) /\
     forallb is_called delta = true /\
     (existsb delivered delta = true <-> r = Ret true) /\
     forallb (called_by [name]) delta = true /\
     existsb probe_ok delta = false /\
     sends_follow_probes (Some name) delta = true) /\
  (forall w st, exists delta r,
     NotificationTier.is_available t w st = (r, ext st delta) /\
     forallb is_called delta = true /\
     existsb is_send delta = false /\
     forallb (called_by [name]) delta = true /\
     (r = Ret true -> existsb probe_ok delta = true) /\
     (r = Ret true -> forall a, available_after a delta = Some name)).

(* ------------------------------------------------------------------ *)
(** * Properties *)

(** ** Dictionaries and comparisons *)

Lemma Qgtb_true (y x : Q) : Qgtb y x = true <-> (x < y)%Q.
Proof.
  unfold Qgtb. rewrite negb_true_iff.
  split; intro H.
  - apply Qnot_le_lt. intro Hle. apply Qle_bool_iff in Hle. congruence.
  - destruct (Qle_bool y x) eqn:E; [| reflexivity].
    apply Qle_bool_iff in E. exfalso. apply (Qlt_not_le _ _ H E).
Qed.

Lemma Qgtb_false (y x : Q) : Qgtb y x = false <-> (y <= x)%Q.
Proof.
  unfold Qgtb. rewrite negb_false_iff. apply Qle_bool_iff.
Qed.

Lemma dict_get_set_same {V} (k : string) (v : V) (d : pydict V) :
  dict_get k (dict_set k v d) = Some v.
Proof.
  induction d as [| [k' v'] rest IH]; simpl.
  - now rewrite String.eqb_refl.
  - destruct (String.eqb k k') eqn:E; simpl; rewrite E; auto.
Qed.

Lemma dict_get_set_other {V} (k k0 : string) (v : V) (d : pydict V) :
  k0 <> k -> dict_get k0 (dict_set k v d) = dict_get k0 d.
Proof.
  intro Hne. induction d as [| [k' v'] rest IH]; simpl.
  - apply String.eqb_neq in Hne. now rewrite Hne.
  - destruct (String.eqb k k') eqn:E; simpl.
    + apply String.eqb_eq in E. subst k'.
      apply String.eqb_neq in Hne. now rewrite Hne.
    + destruct (String.eqb k0 k'); auto.
Qed.


(** ** The activity store *)

Lemma mark_activity_missing (sid : string) (now : Q) :
  SessionTracker.mark_activity sid now Missing = Holds (JObj [(sid, JNum now)]).
Proof. reflexivity. Qed.

Lemma mark_activity_object (sid : string) (now : Q) (d : dict) :
  SessionTracker.mark_activity sid now (Holds (JObj d))
  = Holds (JObj (dict_set sid (JNum now) d)).
Proof. reflexivity. Qed.



Lemma verdict_float (now t : Q) (threshold : Z) :
  verdict now threshold (JNum t) = Qgtb (now - t) (inject_Z threshold).
Proof. reflexivity. Qed.

(** What [is_session_idle] answers on a file that holds an object. *)
Lemma is_session_idle_object
  (d : dict) (session_id : string) (threshold : Z) (now : Q) :
  SessionTracker.is_session_idle (Holds (JObj d)) session_id threshold now
  = match dict_get session_id d with
    | None => true
    | Some v => verdict now threshold v
    end.
Proof.
  unfold SessionTracker.is_session_idle, py_get, dict_get_default, verdict.
  simpl.
  destruct (dict_get session_id d) as [v |]; [| reflexivity].
  destruct v; try reflexivity.
  unfold py_sub, to_float. simpl. destruct (fits_float n); reflexivity.
Qed.

Lemma is_session_idle_no_object
  (f : file) (session_id : string) (threshold : Z) (now : Q) :
  (forall d, f <> Holds (JObj d)) ->
  SessionTracker.is_session_idle f session_id threshold now = true.
Proof.
  intro H. destruct f as [| | | e | v]; try reflexivity.
  destruct v; try reflexivity. now elim (H fields).
Qed.

(** [is_session_idle] reads the file only through the entry of the session. *)
Lemma is_session_idle_entry
  (f : file) (session_id : string) (threshold : Z) (now : Q) :
  SessionTracker.is_session_idle f session_id threshold now
  = match entry f session_id with
    | None => true
    | Some v => verdict now threshold v
    end.
Proof.
  destruct f as [| | | e | v]; try reflexivity.
  destruct v; try reflexivity.
  apply is_session_idle_object.
Qed.


Lemma mark_activity_entry_same (f : file) (session_id : string) (now : Q) :
  writable f ->
  entry (SessionTracker.mark_activity session_id now f) session_id
  = Some (JNum now).
Proof.
  intros [-> | [d ->]].
  - rewrite mark_activity_missing. simpl. now rewrite String.eqb_refl.
  - rewrite mark_activity_object. simpl. apply dict_get_set_same.
Qed.













(** ** Runs of effectful code *)

Lemma ext_nil (st : state) : ext st [] = st.
Proof. destruct st. unfold ext. simpl. now rewrite app_nil_r. Qed.

Lemma ext_ext (st : state) (d1 d2 : list effect) :
  ext (ext st d1) d2 = ext st (d1 ++ d2).
Proof. unfold ext. simpl. now rewrite app_assoc. Qed.

Lemma perform_run (c : call) (w : World) (st : state) :
  perform c w st = (Ret (w (log st) c), ext st [Called c (w (log st) c)]).
Proof. reflexivity. Qed.

Lemma emit_run (e : effect) (w : World) (st : state) :
  emit e w st = (Ret tt, ext st [e]).
Proof. reflexivity. Qed.

(** [subprocess.run(..., check=True)] logs its call and nothing else. *)
Lemma subprocess_run_run (c : call) (w : World) (st : state) :
  subprocess_run c w st =
  (match w (log st) c with
   | Code 0 => Ret tt
   | Code _ => Raise CalledProcessError
   | Fails e => Raise e
   end, ext st [Called c (w (log st) c)]).
Proof.
  unfold subprocess_run, bind. rewrite perform_run.
  destruct (w (log st) c) as [[| p | p] | e]; reflexivity.
Qed.

Lemma requests_run (c : call) (w : World) (st : state) :
  requests c w st =
  (match w (log st) c with
   | Code status => Ret status
   | Fails e => Raise e
   end, ext st [Called c (w (log st) c)]).
Proof.
  unfold requests, bind. rewrite perform_run.
  destruct (w (log st) c); reflexivity.
Qed.

(** ** The tiers *)

(** Name the log and the result a run ends with, once both are computed. *)
Ltac answer := do 2 eexists; split; [reflexivity |].

(** The desktop tier logs only calls, and answers true exactly when one
    of its two helpers exited with code 0. *)
Lemma macos_send_spec (title message : string) (w : World) (st : state) :
  exists delta r,
    MacOSNotificationTier.send_notification title message w st = (r, ext st delta) /\
    forallb is_called delta = true /\
    (existsb delivered delta = true <-> r = Ret true).
Proof.
  unfold MacOSNotificationTier.send_notification, try_, bind.
  rewrite subprocess_run_run.
  destruct (w (log st) (RunTerminalNotifier title message)) as [[| p | p] | e] eqn:E1.
  - answer. simpl. intuition.
  - unfold except_. simpl. rewrite subprocess_run_run, ext_ext.
    destruct (w _ (RunOsascript title message)) as [[| q | q] | e2];
      [| | | destruct e2];
      answer; simpl; intuition discriminate.
  - unfold except_. simpl. rewrite subprocess_run_run, ext_ext.
    destruct (w _ (RunOsascript title message)) as [[| q | q] | e2];
      [| | | destruct e2];
      answer; simpl; intuition discriminate.
  - destruct e; unfold except_; simpl;
      try (answer; simpl; intuition discriminate).
    rewrite subprocess_run_run, ext_ext.
    destruct (w _ (RunOsascript title message)) as [[| q | q] | e2];
      [| | | destruct e2];
      answer; simpl; intuition discriminate.
Qed.

(** The probe of the desktop tier logs one call and delivers nothing. *)
Lemma macos_available_spec (w : World) (st : state) :
  exists delta r,
    MacOSNotificationTier.is_available w st = (r, ext st delta) /\
    forallb is_called delta = true /\
    existsb is_send delta = false.
Proof.
  unfold MacOSNotificationTier.is_available, try_, bind.
  rewrite subprocess_run_run.
  destruct (w (log st) RunOsascriptProbe) as [[| p | p] | e];
    [| | | destruct e];
    answer; simpl; auto.
Qed.

(** The push tier logs only its POST, and answers true exactly when the
    status was 200. *)
Lemma ntfy_send_spec
  (s : NtfyNotificationTier.self) (title message : string)
  (w : World) (st : state) :
  exists delta r,
    NtfyNotificationTier.send_notification s title message w st = (r, ext st delta) /\
    forallb is_called delta = true /\
    (existsb delivered delta = true <-> r = Ret true).
Proof.
  unfold NtfyNotificationTier.send_notification, try_, bind.
  rewrite requests_run.
  destruct (w (log st) _) as [n | e]; [| destruct e];
    answer; simpl; try (intuition discriminate).
  rewrite orb_false_r. destruct (Z.eqb n 200); intuition discriminate.
Qed.

Lemma ntfy_available_spec
  (s : NtfyNotificationTier.self) (w : World) (st : state) :
  exists delta r,
    NtfyNotificationTier.is_available s w st = (r, ext st delta) /\
    forallb is_called delta = true /\
    existsb is_send delta = false.
Proof.
  unfold NtfyNotificationTier.is_available, try_, bind.
  rewrite requests_run.
  destruct (w (log st) _) as [n | e]; [| destruct e];
    answer; simpl; auto.
Qed.

Lemma delivered_is_send (e : effect) : delivered e = true -> is_send e = true.
Proof. destruct e as [c o | t | s m]; [destruct c, o |..]; simpl; auto. Qed.

Lemma no_send_no_delivery (delta : list effect) :
  existsb is_send delta = false -> existsb delivered delta = false.
Proof.
  induction delta as [| e rest IH]; simpl; [auto |].
  intro H. apply orb_false_iff in H as [He Hrest].
  rewrite (IH Hrest), orb_false_r.
  destruct (delivered e) eqn:E; [| reflexivity].
  apply delivered_is_send in E. congruence.
Qed.

Lemma init_registry_ok (cfg : NotificationConfig) :
  registry_ok (TieredNotifier.init cfg).
Proof.
  intros name t. unfold TieredNotifier.init. simpl.
  destruct (String.eqb name "macos").
  - intro H. inversion H. split.
    + intros. apply macos_send_spec.
    + intros. apply macos_available_spec.
  - destruct (String.eqb name "ntfy"); [| discriminate].
    intro H. inversion H. split.
    + intros. apply ntfy_send_spec.
    + intros. apply ntfy_available_spec.
Qed.

Section Router.

(** A router whose tiers keep to [tier_ok], one notification, one host. *)
Variable s : TieredNotifier.self.
Hypothesis registry : registry_ok s.
Variables title message : string.
Variable w : World.

Lemma immediate_turn_spec (acc : bool) (name : string) (st : state) :
  exists delta r,
    TieredNotifier.immediate_turn s title message acc name w st = (r, ext st delta) /\
    forallb is_called delta = true /\
    (forall b, r = Ret b -> b = acc || existsb delivered delta).
Proof.
  unfold TieredNotifier.immediate_turn.
  destruct (dict_get name (TieredNotifier.tiers s)) as [t |] eqn:Hget.
  - destruct (registry _ _ Hget) as [Hsend Havail].
    destruct (Havail w st) as (d1 & r1 & E1 & C1 & S1).
    unfold bind. rewrite E1.
    destruct r1 as [[|] | e].
    + destruct (Hsend title message w (ext st d1)) as (d2 & r2 & E2 & C2 & D2).
      rewrite E2, ext_ext.
      exists (d1 ++ d2).
      destruct r2 as [sent | e]; eexists; (split; [reflexivity |]);
        rewrite forallb_app, C1, C2; (split; [reflexivity |]);
        intros b Hb; inversion Hb; subst.
      rewrite existsb_app, (no_send_no_delivery _ S1). simpl.
      destruct sent.
      * destruct D2 as [_ D2]. rewrite D2 by reflexivity. now rewrite orb_true_r.
      * destruct (existsb delivered d2) eqn:E; [| now rewrite orb_false_r].
        destruct D2 as [D2 _]. specialize (D2 eq_refl). discriminate.
    + exists d1. eexists. split; [reflexivity |]. split; [exact C1 |].
      intros b Hb. inversion Hb.
      rewrite (no_send_no_delivery _ S1). now rewrite orb_false_r.
    + exists d1. eexists. split; [reflexivity |]. split; [exact C1 |].
      intros b Hb. discriminate.
  - exists []. eexists. unfold ret. rewrite ext_nil.
    split; [reflexivity |]. split; [reflexivity |].
    intros b Hb. inversion Hb. simpl. now rewrite orb_false_r.
Qed.

(** The loop over the immediate tiers: only calls are logged, and when
    the loop ends normally its flag is the inclusive or of the confirmed
    sends. *)
Lemma immediate_loop_spec (names : list string) (acc : bool) (st : state) :
  exists delta r,
    for_each names acc (TieredNotifier.immediate_turn s title message) w st
      = (r, ext st delta) /\
    forallb is_called delta = true /\
    (forall b, r = Ret b -> b = acc || existsb delivered delta).
Proof.
  revert acc st.
  induction names as [| name rest IH]; intros acc st; simpl.
  - exists []. eexists. unfold ret. rewrite ext_nil.
    split; [reflexivity |]. split; [reflexivity |].
    intros b Hb. inversion Hb. simpl. now rewrite orb_false_r.
  - destruct (immediate_turn_spec acc name st) as (d1 & r1 & E1 & C1 & B1).
    unfold bind. rewrite E1.
    destruct r1 as [acc' | e].
    + destruct (IH acc' (ext st d1)) as (d2 & r2 & E2 & C2 & B2).
      rewrite E2, ext_ext.
      exists (d1 ++ d2), r2. split; [reflexivity |].
      rewrite forallb_app, C1, C2. split; [reflexivity |].
      intros b Hb. rewrite (B2 b Hb), (B1 acc' eq_refl), existsb_app.
      now rewrite orb_assoc.
    + exists d1. eexists. split; [reflexivity |]. split; [exact C1 |].
      intros b Hb. discriminate.
Qed.

(** [send_tiered_notification] in terms of its loop: an exception raised
    in the loop ends the call at once; otherwise the hand-off and the
    warning follow, and the flag is returned. *)
Lemma send_tiered_notification_spec (session_id : option string) (st : state) :
  exists delta r,
    for_each (TieredNotifier.immediate_tiers (TieredNotifier.config s)) false
      (TieredNotifier.immediate_turn s title message) w st = (r, ext st delta) /\
    forallb is_called delta = true /\
    match r with
    | Raise e =>
        TieredNotifier.send_tiered_notification s title message session_id w st
        = (Raise e, ext st delta)
    | Ret b =>
        b = existsb delivered delta /\
        TieredNotifier.send_tiered_notification s title message session_id w st
        = (Ret b, ext st (delta ++ handoff s title message session_id ++ warning b))
    end.
Proof.
  destruct (immediate_loop_spec
              (TieredNotifier.immediate_tiers (TieredNotifier.config s))
              false st) as (delta & r & E & C & B).
  exists delta, r. split; [exact E |]. split; [exact C |].
  unfold TieredNotifier.send_tiered_notification, bind. rewrite E.
  destruct r as [b | e]; [| reflexivity].
  split; [exact (B b eq_refl) |].
  unfold handoff, TieredNotifier._schedule_delayed_notifications, warning.
  destruct session_id as [sid |]; simpl.
  - destruct (negb (String.eqb sid "") && nonempty (delayed_tiers (TieredNotifier.config s)));
      destruct b; unfold ret, emit, ext; simpl;
      rewrite <- ?app_assoc; simpl; rewrite ?app_nil_r; reflexivity.
  - destruct b; unfold ret, emit, ext; simpl;
      rewrite <- ?app_assoc; simpl; rewrite ?app_nil_r; reflexivity.
Qed.

End Router.

Lemma calls_start_nothing (delta : list effect) :
  forallb is_called delta = true -> existsb is_started delta = false.
Proof.
  induction delta as [| e rest IH]; simpl; [auto |].
  intro H. apply andb_true_iff in H as [He Hrest].
  rewrite (IH Hrest). destruct e; simpl in *; auto; discriminate.
Qed.

Lemma handoff_delivers_nothing
  (s : TieredNotifier.self) (title message : string) (session_id : option string) :
  existsb delivered (handoff s title message session_id) = false.
Proof.
  unfold handoff. destruct session_id as [sid |]; [| reflexivity].
  destruct (truthy (Some sid) && nonempty (delayed_tiers (TieredNotifier.config s)));
    reflexivity.
Qed.

Lemma warning_delivers_nothing (b : bool) : existsb delivered (warning b) = false.
Proof. destruct b; reflexivity. Qed.

(** The names in the snapshot are the configured delayed tiers, enabled or not. *)
Lemma snapshot_names (cfg : NotificationConfig) :
  map fst (TieredNotifier.snapshot cfg) = delayed_tiers cfg.
Proof.
  unfold TieredNotifier.snapshot. rewrite map_map. simpl. apply map_id.
Qed.

(** ** The entry point *)

(** A notification event, through the router. *)
Lemma main_notification
  (cfg : NotificationConfig) (now : Q) (ev : hook_event) (w : World) (f : file) :
  has_tool_name ev || has_stop_hook_active ev = false ->
  let title := default_to "Claude Code" (get_title ev) in
  let message := default_to "Notification" (get_message ev) in
  main cfg now (Object ev) w f =
  match TieredNotifier.send_tiered_notification
          (TieredNotifier.init cfg) title message (get_session_id ev) w (start f) with
  | (Ret true, st) => (0%Z, ext st [Printed Stdout (NotificationSent title message)])
  | (Ret false, st) => (1%Z, ext st [Printed Stderr FailedToSend])
  | (Raise JSONDecodeError, st) => (1%Z, ext st [Printed Stderr InvalidJsonInput])
  | (Raise e, st) => (1%Z, ext st [Printed Stderr (ErrorText e)])
  end.
Proof.
  intros Hflag title message.
  unfold main, try_, main_body. rewrite Hflag.
  fold title. fold message. unfold bind at 1. fold (start f).
  destruct (TieredNotifier.send_tiered_notification
              (TieredNotifier.init cfg) title message (get_session_id ev) w (start f))
    as [[[|] | e] st]; try reflexivity.
  destruct e; reflexivity.
Qed.

(** An activity event: without a session identifier nothing happens;
    with one the tracker is made and, unless making it raises, the
    activity is recorded. *)
Lemma main_activity
  (cfg : NotificationConfig) (now : Q) (ev : hook_event) (w : World) (f : file) :
  has_tool_name ev || has_stop_hook_active ev = true ->
  main cfg now (Object ev) w f
  = if truthy (get_session_id ev) then
      match w [] MakeStoreDir with
      | Code n =>
          (0%Z, {| log := [Called MakeStoreDir (Code n)];
                   store := tracked (get_session_id ev) now f |})
      | Fails JSONDecodeError =>
          (1%Z, {| log := [Called MakeStoreDir (Fails JSONDecodeError);
                           Printed Stderr InvalidJsonInput];
                   store := f |})
      | Fails e =>
          (1%Z, {| log := [Called MakeStoreDir (Fails e);
                           Printed Stderr (ErrorText e)];
                   store := f |})
      end
    else (0%Z, start f).
Proof.
  intro Hflag. unfold main, try_, main_body, tracked. rewrite Hflag.
  destruct (get_session_id ev) as [sid |]; [| reflexivity].
  simpl truthy. destruct (negb (String.eqb sid "")); [| reflexivity].
  unfold track, SessionTracker_init, bind. rewrite perform_run.
  cbn [log]. destruct (w [] MakeStoreDir) as [n | e]; [reflexivity |].
  destruct e; reflexivity.
Qed.

(** Whatever happens to the tracker, an activity event ends with status 0
    or 1, starts no task and sends nothing. *)
Lemma main_activity_quiet
  (cfg : NotificationConfig) (now : Q) (ev : hook_event) (w : World) (f : file) :
  has_tool_name ev || has_stop_hook_active ev = true ->
  (fst (main cfg now (Object ev) w f) = 0%Z \/
   fst (main cfg now (Object ev) w f) = 1%Z) /\
  started_tasks (log (snd (main cfg now (Object ev) w f))) = [] /\
  existsb is_send (log (snd (main cfg now (Object ev) w f))) = false.
Proof.
  intro Hflag. rewrite (main_activity cfg now ev w f Hflag).
  destruct (truthy (get_session_id ev)); [| simpl; auto].
  destruct (w [] MakeStoreDir) as [n | e]; [simpl; auto |].
  destruct e; simpl; auto.
Qed.


(** ** Concrete hosts and runs *)

(** C1 at a failing input.  With only the desktop tier enabled and the
    default delayed tiers, a call with a session identifier hands the push
    tier to the scheduler although it is not enabled, and the task later
    posts through it; the single-tier path refuses the same tier as
    disabled. *)
Theorem disabled_tier_is_handed_off :
  mem "ntfy" (enabled_tiers desktop_only) = false /\
  TieredNotifier.send_tiered_notification
    (TieredNotifier.init desktop_only) "Build" "done" (Some "s1")
    healthy (start Missing)
  = (Ret true,
     {| log := [Called RunOsascriptProbe (Code 0);
                Called (RunTerminalNotifier "Build" "done") (Code 0);
                Started {| task_title := "Build";
                           task_message := "done";
                           task_session_id := "s1";
                           task_delay_seconds := 30;
                           task_tiers := [("ntfy", [])] |}];
        store := Missing |}) /\
  DelayScript.run
    {| task_title := "Build"; task_message := "done"; task_session_id := "s1";
       task_delay_seconds := 30; task_tiers := [("ntfy", [])] |}
    31 healthy (start (SessionTracker.mark_activity "s1" 0 Missing))
  = Some (Ret tt,
          {| log := [Called (default_post "Build" "done") (Code 200)];
             store := Holds (JObj [("s1", JNum 0)]) |}) /\
  TieredNotifier.send_notification
    (TieredNotifier.init desktop_only) "Build" "done" (Some "ntfy")
    healthy (start Missing)
  = (Ret false,
     {| log := [Printed Stderr (TierDisabled "ntfy")]; store := Missing |}).
Proof. repeat split. Qed.

(** C1, second way to fail: an immediate tier that raises ends the call
    before the hand-off. *)
Lemma raising_tier_prevents_handoff :
  TieredNotifier.send_tiered_notification
    (TieredNotifier.init default_config) "Build" "done" (Some "s1")
    no_terminal_notifier (start Missing)
  = (Raise FileNotFoundError,
     {| log := [Called RunOsascriptProbe (Code 0);
                Called (RunTerminalNotifier "Build" "done")
                       (Fails FileNotFoundError)];
        store := Missing |}).
Proof. reflexivity. Qed.

(** C4 at a failing input.  Without [terminal-notifier] the desktop tier
    raises [FileNotFoundError] instead of answering false, and the
    fallback is not tried; [is_available] of the same tier catches that
    very exception. *)
Theorem desktop_send_raises_without_helper :
  MacOSNotificationTier.send_notification "Build" "done"
    no_terminal_notifier (start Missing)
  = (Raise FileNotFoundError,
     {| log := [Called (RunTerminalNotifier "Build" "done")
                       (Fails FileNotFoundError)];
        store := Missing |}) /\
  MacOSNotificationTier.is_available
    (fun _ _ => Fails FileNotFoundError) (start Missing)
  = (Ret false,
     {| log := [Called RunOsascriptProbe (Fails FileNotFoundError)];
        store := Missing |}).
Proof. split; reflexivity. Qed.

(** On any host where starting [terminal-notifier] raises an exception
    other than [CalledProcessError], the desktop tier raises it. *)
Lemma desktop_send_propagates
  (title message : string) (e : exn) (w : World) (st : state) :
  w (log st) (RunTerminalNotifier title message) = Fails e ->
  e <> CalledProcessError ->
  MacOSNotificationTier.send_notification title message w st
  = (Raise e, ext st [Called (RunTerminalNotifier title message) (Fails e)]).
Proof.
  intros Hw Hne.
  unfold MacOSNotificationTier.send_notification, try_, bind.
  rewrite subprocess_run_run, Hw.
  destruct e; try reflexivity. now elim Hne.
Qed.

(** C6 at a failing input.  The push tier is confirmed with status 200,
    then the desktop tier raises: the call does not return true, it
    raises. *)
Theorem confirmed_send_then_raise :
  TieredNotifier.send_tiered_notification
    (TieredNotifier.init both_immediate) "Build" "done" None
    no_terminal_notifier (start Missing)
  = (Raise FileNotFoundError,
     {| log := [Called (Get (JStr "https://ntfy.sh")) (Code 200);
                Called (default_post "Build" "done") (Code 200);
                Called RunOsascriptProbe (Code 0);
                Called (RunTerminalNotifier "Build" "done")
                       (Fails FileNotFoundError)];
        store := Missing |}).
Proof. reflexivity. Qed.


(** C10.  An event whose session identifier is the empty string runs
    exactly like the same event without a session identifier.  As an
    activity event it exits 0 and leaves the store and the log untouched;
    as a notification event it starts no delayed task. *)
Theorem empty_session_id_is_absent
  (cfg : NotificationConfig) (now : Q) (ev : hook_event) (w : World) (f : file) :
  main cfg now (Object (with_session_id ev (Some ""))) w f
  = main cfg now (Object (with_session_id ev None)) w f /\
  if has_tool_name ev || has_stop_hook_active ev then
    main cfg now (Object (with_session_id ev (Some ""))) w f = (0%Z, start f)
  else
    existsb is_started
      (log (snd (main cfg now (Object (with_session_id ev (Some ""))) w f)))
    = false.
Proof.
  split; [reflexivity |].
  destruct (has_tool_name ev || has_stop_hook_active ev) eqn:Hflag.
  - unfold main, try_, main_body. simpl. rewrite Hflag. reflexivity.
  - rewrite (main_notification cfg now (with_session_id ev (Some "")) w f Hflag).
    cbv zeta. simpl get_title. simpl get_message. simpl get_session_id.
    destruct (send_tiered_notification_spec (TieredNotifier.init cfg)
                (init_registry_ok cfg)
                (default_to "Claude Code" (get_title ev))
                (default_to "Notification" (get_message ev))
                w (Some "") (start f))
      as (delta & r & _ & Hcalls & Hrun).
    apply calls_start_nothing in Hcalls.
    destruct r as [b | e].
    + destruct Hrun as [_ Hrun]. rewrite Hrun.
      destruct b; cbv beta iota; unfold ext, start, handoff; cbn [snd log];
        simpl truthy; cbn [andb warning];
        rewrite !existsb_app, Hcalls; reflexivity.
    + rewrite Hrun.
      destruct e; cbv beta iota; unfold ext, start; cbn [snd log];
        rewrite !existsb_app, Hcalls; reflexivity.
Qed.

(** ** The delayed task *)

Lemma calls_app (d1 d2 : list effect) : calls (d1 ++ d2) = calls d1 ++ calls d2.
Proof. unfold calls. apply flat_map_app. Qed.

Lemma expected_posts_ntfy
  (p : DelayScript.script) (name : string) (config : dict)
  (tail : list (string * dict)) :
  String.eqb name "ntfy" = true ->
  expected_posts p ((name, config) :: tail)
  = DelayScript.post_for p config :: expected_posts p tail.
Proof. intro H. unfold expected_posts, is_ntfy. simpl. now rewrite H. Qed.

Lemma expected_posts_other
  (p : DelayScript.script) (name : string) (config : dict)
  (tail : list (string * dict)) :
  String.eqb name "ntfy" = false ->
  expected_posts p ((name, config) :: tail) = expected_posts p tail.
Proof. intro H. unfold expected_posts, is_ntfy. simpl. now rewrite H. Qed.

Lemma for_each_cons {A S} (x : A) (rest : list A) (acc : S) (body : S -> A -> M S) :
  for_each (x :: rest) acc body
  = (acc' <- body acc x ;; for_each rest acc' body).
Proof. reflexivity. Qed.

Lemma turn_run (p : DelayScript.script) (name : string) (config : dict) :
  DelayScript.turn p tt (name, config)
  = if String.eqb name "ntfy"
    then (_ <- requests (DelayScript.post_for p config) ;; ret tt)
    else ret tt.
Proof. reflexivity. Qed.

(** The program of a task has the values of the task in its literals. *)
Lemma parse_fields (t : delayed_task) (p : DelayScript.script) :
  DelayScript.parse t = Some p ->
  DelayScript.script_title p = task_title t /\
  DelayScript.script_message p = task_message t /\
  DelayScript.script_session_id p = task_session_id t /\
  DelayScript.script_delay p = task_delay_seconds t /\
  DelayScript.script_tiers p = task_tiers t.
Proof.
  unfold DelayScript.parse.
  match goal with |- (if ?c then _ else _) = _ -> _ => destruct c end;
    [| discriminate].
  intro H. inversion H. simpl. auto.
Qed.

Lemma run_exec
  (t : delayed_task) (p : DelayScript.script) (now : Q) (w : World) (st : state) :
  DelayScript.parse t = Some p ->
  DelayScript.run t now w st = Some (DelayScript.exec p now w st).
Proof. intro H. unfold DelayScript.run. now rewrite H. Qed.

(** The loop of the script: the POSTs made are an initial part of the
    expected ones, all of them when the loop ends normally, and the loop
    ends normally unless a POST raised. *)
Lemma delayed_loop_spec
  (p : DelayScript.script) (tiers : list (string * dict)) (w : World) (st : state) :
  exists delta r rest,
    for_each tiers tt (DelayScript.turn p) w st = (r, ext st delta) /\
    forallb is_called delta = true /\
    expected_posts p tiers = calls delta ++ rest /\
    (r = Ret tt -> rest = []) /\
    (existsb raised delta = false -> r = Ret tt).
Proof.
  revert st. induction tiers as [| [name config] tail IH]; intro st.
  - exists [], (Ret tt), []. simpl. unfold ret. rewrite ext_nil. auto.
  - rewrite for_each_cons, turn_run.
    destruct (String.eqb name "ntfy") eqn:Hname.
    + rewrite (expected_posts_ntfy p name config tail Hname).
      unfold bind at 1 2. rewrite requests_run.
      destruct (w (log st) (DelayScript.post_for p config)) as [n | e] eqn:E.
      * unfold ret at 1.
        destruct (IH (ext st [Called (DelayScript.post_for p config) (Code n)]))
          as (delta & r & rest & Hrun & Hcalled & Hexp & Hall & Hok).
        rewrite Hrun, ext_ext.
        exists (Called (DelayScript.post_for p config) (Code n) :: delta), r, rest.
        split; [reflexivity |]. simpl. rewrite Hexp. auto.
      * exists [Called (DelayScript.post_for p config) (Fails e)], (Raise e).
        eexists. split; [reflexivity |]. simpl.
        split; [reflexivity |]. split; [reflexivity |]. split; discriminate.
    + rewrite (expected_posts_other p name config tail Hname).
      unfold bind at 1. unfold ret at 1.
      destruct (IH st) as (delta & r & rest & Hrun & Hexp & Hall & Hok).
      exists delta, r, rest. auto.
Qed.

(** C5, as the code has it.  Take a task whose title, message, session
    identifier and settings the template reads as themselves, so that
    the script is the program of the template with the values of the
    task.  When the session is judged idle, the task walks the snapshot
    in the configured order and posts only for entries named [ntfy]: the
    POSTs it makes are always an initial part of the POSTs for those
    entries, and they are all of them when the snapshot is a Python
    literal (no [true], [false], [null], [NaN] or [Infinity] in the
    settings) and no POST raises.  Nothing else is called, and the store
    is not touched. *)
Theorem delayed_dispatch_order
  (t : delayed_task) (p : DelayScript.script) (w : World) (st : state) :
  DelayScript.parse t = Some p ->
  DelayScript.script_title p = task_title t /\
  DelayScript.script_message p = task_message t /\
  DelayScript.script_tiers p = task_tiers t /\
  exists delta rest,
    DelayScript.dispatch p true w st = (Ret tt, ext st delta) /\
    forallb is_called delta = true /\
    expected_posts p (task_tiers t) = calls delta ++ rest /\
    (forallb (fun tc => python_literal (JObj (snd tc))) (task_tiers t) = true ->
     existsb raised delta = false ->
     calls delta = expected_posts p (task_tiers t)).
Proof.
  intro Hparse.
  destruct (parse_fields t p Hparse) as (Htitle & Hmessage & _ & _ & Htiers).
  split; [exact Htitle |]. split; [exact Hmessage |]. split; [exact Htiers |].
  unfold DelayScript.dispatch, try_, bind, eval_snapshot. rewrite Htiers.
  destruct (forallb (fun tc => python_literal (JObj (snd tc))) (task_tiers t)).
  - unfold ret at 1.
    destruct (delayed_loop_spec p (task_tiers t) w st)
      as (delta & r & rest & Hrun & Hcalled & Hexp & Hall & Hok).
    rewrite Hrun. exists delta, rest.
    destruct r as [[] | e].
    + split; [reflexivity |]. split; [exact Hcalled |]. split; [exact Hexp |].
      intros _ _. rewrite Hexp, (Hall eq_refl). now rewrite app_nil_r.
    + unfold except_all. unfold ret. split; [reflexivity |].
      split; [exact Hcalled |]. split; [exact Hexp |].
      intros _ Hnone. specialize (Hok Hnone). discriminate.
  - exists [], (expected_posts p (task_tiers t)).
    unfold raise, except_all, ret. rewrite ext_nil.
    split; [reflexivity |]. split; [reflexivity |]. split; [reflexivity |].
    intros Hlit. discriminate.
Qed.

Lemma delayed_dispatch_order_witness :
  exists delta,
    DelayScript.dispatch three_delayed_script true healthy (start Missing)
    = (Ret tt, ext (start Missing) delta) /\
    calls delta = [default_post "Build" "done"; default_post "Build" "done"].
Proof.
  destruct (delayed_dispatch_order three_delayed_task three_delayed_script
              healthy (start Missing) eq_refl)
    as (_ & _ & _ & delta & rest & Hrun & _ & _ & Hall).
  exists delta. split; [exact Hrun |].
  rewrite Hall; [reflexivity | reflexivity |].
  vm_compute in Hrun. inversion Hrun. reflexivity.
Defined.

(** C5 as stated fails on a snapshot of three entries when the first
    POST raises: the desktop entry is never attempted, and the second
    push entry is not attempted after the first one failed. *)
Lemma one_failure_ends_the_dispatch :
  map fst (task_tiers three_delayed_task) = ["macos"; "ntfy"; "ntfy"] /\
  DelayScript.parse three_delayed_task = Some three_delayed_script /\
  DelayScript.dispatch three_delayed_script true unreachable_server (start Missing)
  = (Ret tt,
     {| log := [Called (default_post "Build" "done") (Fails RequestException)];
        store := Missing |}).
Proof. split; [| split]; reflexivity. Qed.

(** The check the script makes is the one of [is_session_idle]. *)
Lemma script_is_idle_eq (p : DelayScript.script) (f : file) (now : Q) :
  DelayScript.is_idle p f now
  = SessionTracker.is_session_idle
      f (DelayScript.script_session_id p) (DelayScript.script_delay p) now.
Proof.
  unfold DelayScript.is_idle, SessionTracker.is_session_idle.
  destruct f as [| | | e | v]; try reflexivity.
  destruct v; try reflexivity.
  simpl.
  destruct (dict_get_default (DelayScript.script_session_id p) JNull fields);
    reflexivity.
Qed.

(** With a delay that [time.sleep] accepts, the script judges the session
    and dispatches. *)
Lemma exec_dispatch (p : DelayScript.script) (now : Q) (w : World) (st : state) :
  (0 <= DelayScript.script_delay p <= 9223372036)%Z ->
  DelayScript.exec p now w st
  = DelayScript.dispatch p
      (SessionTracker.is_session_idle
         (store st) (DelayScript.script_session_id p)
         (DelayScript.script_delay p) now) w st.
Proof.
  intro H. unfold DelayScript.exec, DelayScript.sleep, bind.
  destruct (Z.ltb_spec 9223372036 (Z.abs (DelayScript.script_delay p))); [lia |].
  destruct (Z.ltb_spec (DelayScript.script_delay p) 0); [lia |].
  unfold ret. now rewrite script_is_idle_eq.
Qed.

(** A run of the script of a task, in terms of the task. *)
Lemma run_dispatch
  (t : delayed_task) (p : DelayScript.script) (now : Q) (w : World) (st : state) :
  DelayScript.parse t = Some p ->
  (0 <= task_delay_seconds t <= 9223372036)%Z ->
  DelayScript.run t now w st
  = Some (DelayScript.dispatch p
            (SessionTracker.is_session_idle
               (store st) (task_session_id t) (task_delay_seconds t) now) w st).
Proof.
  intros Hparse Hdelay.
  destruct (parse_fields t p Hparse) as (_ & _ & Hsid & Hd & _).
  rewrite (run_exec t p now w st Hparse), exec_dispatch by now rewrite Hd.
  now rewrite Hsid, Hd.
Qed.

(** A session that is not judged idle gets nothing. *)
Lemma dispatch_not_idle (p : DelayScript.script) (w : World) (st : state) :
  DelayScript.dispatch p false w st = (Ret tt, st).
Proof. reflexivity. Qed.

(** ** Further properties of the router, the tiers and the task *)

(** With no enabled tier the router returns false without calling any
    helper or server. *)
Theorem no_enabled_tier_no_call
  (default : string) (configs : pydict dict) (delayed : list string) (delay : Z)
  (title message : string) (session_id : option string)
  (w : World) (st : state) :
  exists delta,
    TieredNotifier.send_tiered_notification
      (TieredNotifier.init
         {| enabled_tiers := []; default_tier := default;
            tier_configs := configs; delayed_tiers := delayed;
            delay_seconds := delay |})
      title message session_id w st
    = (Ret false, ext st delta) /\
    existsb is_called delta = false.
Proof.
  unfold TieredNotifier.send_tiered_notification, TieredNotifier.immediate_tiers.
  simpl. unfold bind at 1. unfold ret at 1.
  destruct session_id as [sid |];
    [destruct (truthy (Some sid) && nonempty delayed) |];
    eexists;
    unfold bind, ret, emit, TieredNotifier._schedule_delayed_notifications, ext;
    simpl; rewrite <- ?app_assoc; (split; reflexivity).
Qed.

(** Whenever [send_tiered_notification] returns, the flag it returns is
    the inclusive or of the confirmed sends of the call. *)
Theorem returned_flag_is_inclusive_or
  (cfg : NotificationConfig) (title message : string)
  (session_id : option string) (w : World) (st : state) :
  exists delta r,
    TieredNotifier.send_tiered_notification
      (TieredNotifier.init cfg) title message session_id w st
    = (r, ext st delta) /\
    forall b, r = Ret b -> b = existsb delivered delta.
Proof.
  destruct (send_tiered_notification_spec (TieredNotifier.init cfg)
              (init_registry_ok cfg) title message w session_id st)
    as (delta & r & _ & _ & Hrun).
  destruct r as [b | e].
  - destruct Hrun as [Hb Hrun]. do 2 eexists. split; [exact Hrun |].
    intros b' Hb'. inversion Hb'. subst b'.
    rewrite !existsb_app, handoff_delivers_nothing, warning_delivers_nothing.
    now rewrite !orb_false_r.
  - do 2 eexists. split; [exact Hrun |]. discriminate.
Qed.

(** Each tier answers true exactly when its send was confirmed: a helper
    that exited with code 0, or a POST answered with status 200. *)
Theorem send_true_only_when_confirmed
  (config : dict) (title message : string) (w : World) (st : state) :
  (exists delta r,
     MacOSNotificationTier.send_notification title message w st
     = (r, ext st delta) /\
     (r = Ret true <-> existsb delivered delta = true)) /\
  (exists delta r,
     NtfyNotificationTier.send_notification
       (NtfyNotificationTier.init config) title message w st
     = (r, ext st delta) /\
     (r = Ret true <-> existsb delivered delta = true)).
Proof.
  split.
  - destruct (macos_send_spec title message w st) as (delta & r & E & _ & D).
    exists delta, r. split; [exact E | now symmetry].
  - destruct (ntfy_send_spec (NtfyNotificationTier.init config) title message w st)
      as (delta & r & E & _ & D).
    exists delta, r. split; [exact E | now symmetry].
Qed.

(** Activity recorded within the delay before the task wakes up
    suppresses the delayed notification.  For a task whose text the
    template reads as itself and whose delay [time.sleep] accepts, the
    script calls nothing when the last mark of its session is no older
    than the delay. *)
Theorem activity_during_wait_suppresses
  (t : delayed_task) (p : DelayScript.script) (f : file) (T now : Q)
  (w : World) (history : list effect) :
  DelayScript.parse t = Some p ->
  (0 <= task_delay_seconds t <= 9223372036)%Z ->
  writable f ->
  (now - T <= inject_Z (task_delay_seconds t))%Q ->
  let st := {| log := history;
               store := SessionTracker.mark_activity (task_session_id t) T f |} in
  DelayScript.run t now w st = Some (Ret tt, st).
Proof.
  intros Hparse Hdelay Hw Hle. cbv zeta.
  rewrite (run_dispatch t p now w _ Hparse Hdelay). simpl store.
  rewrite is_session_idle_entry, mark_activity_entry_same by exact Hw.
  rewrite verdict_float. apply Qgtb_false in Hle. rewrite Hle. reflexivity.
Qed.

Lemma activity_during_wait_suppresses_witness :
  DelayScript.run three_delayed_task 30 healthy
    {| log := [];
       store := SessionTracker.mark_activity "s1" 10
                  (SessionTracker.mark_activity "s1" 0 Missing) |}
  = Some (Ret tt,
          {| log := []; store := Holds (JObj [("s1", JNum 10)]) |}).
Proof.
  apply (activity_during_wait_suppresses three_delayed_task three_delayed_script
           (SessionTracker.mark_activity "s1" 0 Missing) 10 30 healthy []).
  - reflexivity.
  - simpl. lia.
  - right. eexists. reflexivity.
  - unfold Qle. simpl. lia.
Defined.

(** ** More on the activity store *)

Lemma mem_In (k : string) (l : list string) : mem k l = true <-> In k l.
Proof.
  unfold mem. rewrite existsb_exists. split.
  - intros (x & Hin & Heq). apply String.eqb_eq in Heq. now subst.
  - intro Hin. exists k. split; [exact Hin | apply String.eqb_refl].
Qed.

(** Assignment keeps the keys and adds the new one at the end. *)
Lemma dict_set_keys {V} (k : string) (v : V) (d : pydict V) :
  map fst (dict_set k v d)
  = map fst d ++ (if mem k (map fst d) then [] else [k]).
Proof.
  induction d as [| [k' v'] rest IH]; simpl; [reflexivity |].
  destruct (String.eqb k k') eqn:E; simpl.
  - now rewrite app_nil_r.
  - now rewrite IH.
Qed.





(** Idleness only grows with time and shrinks with the threshold: a
    session reported idle stays idle at any later check and under any
    smaller threshold, as long as the file is not written in between. *)
Theorem idle_is_monotone
  (f : file) (session_id : string) (threshold threshold' : Z) (now now' : Q) :
  (now <= now')%Q ->
  (threshold' <= threshold)%Z ->
  SessionTracker.is_session_idle f session_id threshold now = true ->
  SessionTracker.is_session_idle f session_id threshold' now' = true.
Proof.
  intros Hnow Hthr. rewrite !is_session_idle_entry.
  destruct (entry f session_id) as [v |]; [| reflexivity].
  unfold verdict, py_sub.
  destruct (to_float v) as [[t | | negative] | e]; simpl; auto.
  rewrite !Qgtb_true. rewrite Zle_Qle in Hthr. intro H. lra.
Qed.

Lemma idle_is_monotone_witness :
  SessionTracker.is_session_idle (Holds (JObj [("s1", JNum 100)])) "s1" 20 140
  = true.
Proof.
  apply (idle_is_monotone (Holds (JObj [("s1", JNum 100)])) "s1" 30 20 131 140).
  - unfold Qle. simpl. lia.
  - lia.
  - reflexivity.
Defined.

(** ** More on the tiers *)

(** [is_available] of either tier makes one call, its probe, and answers
    true exactly when the probe succeeded: exit code 0 for the desktop
    tier, status 200 for the push tier.  A missing or failing [osascript]
    and an unreachable server give false, not an exception. *)
Theorem is_available_answers (config : dict) (w : World) (st : state) :
  (let o := w (log st) RunOsascriptProbe in
   exists r,
     MacOSNotificationTier.is_available w st
     = (r, ext st [Called RunOsascriptProbe o]) /\
     (r = Ret true <-> o = Code 0) /\
     (forall n, o = Code n -> r = Ret (Z.eqb n 0)) /\
     (o = Fails FileNotFoundError \/ o = Fails CalledProcessError ->
      r = Ret false)) /\
  (let s := NtfyNotificationTier.init config in
   let o := w (log st) (Get (NtfyNotificationTier.server s)) in
   exists r,
     NtfyNotificationTier.is_available s w st
     = (r, ext st [Called (Get (NtfyNotificationTier.server s)) o]) /\
     (r = Ret true <-> o = Code 200) /\
     (forall n, o = Code n -> r = Ret (Z.eqb n 200)) /\
     (o = Fails RequestException -> r = Ret false)).
Proof.
  split; cbv zeta.
  - unfold MacOSNotificationTier.is_available, try_, bind.
    rewrite subprocess_run_run.
    destruct (w (log st) RunOsascriptProbe) as [[| p | p] | e];
      [| | | destruct e];
      (eexists; split; [reflexivity |]);
      (split; [split; intro H; (discriminate || inversion H || reflexivity) |]);
      (split; [intros n Hn; inversion Hn; reflexivity |]);
      intros [H | H]; (discriminate || reflexivity).
  - unfold NtfyNotificationTier.is_available, try_, bind.
    rewrite requests_run.
    destruct (w (log st) (Get _)) as [n | e];
      [| destruct e; eexists; (split; [reflexivity |]);
         (split; [split; discriminate |]); (split; [discriminate |]);
         first [discriminate | reflexivity]].
    eexists. split; [reflexivity |].
    split; [| split; [intros m Hm; inversion Hm; reflexivity | discriminate]].
    simpl. split; intro H.
    + inversion H as [H1]. apply Z.eqb_eq in H1. now subst.
    + inversion H. reflexivity.
Qed.

(** The deferred push is the push the immediate tier would make.  Take
    the task the router hands to the scheduler for a title, a message and
    a session identifier, and let the template read its text as itself.
    Every POST the delayed script makes for an entry of the snapshot is
    the request [NtfyNotificationTier.send_notification] makes for the
    same title and message: same server, topic, priority and tags, with
    the same defaults for settings that are not given. *)
Theorem delayed_push_matches_immediate_push
  (cfg : NotificationConfig) (title message session_id : string)
  (p : DelayScript.script) (w : World) (st : state) :
  DelayScript.parse {| task_title := title;
                       task_message := message;
                       task_session_id := session_id;
                       task_delay_seconds := delay_seconds cfg;
                       task_tiers := TieredNotifier.snapshot cfg |} = Some p ->
  let push :=
    NtfyNotificationTier.init (dict_get_default "ntfy" [] (tier_configs cfg)) in
  let request := push_request push title message in
  Forall (eq request) (expected_posts p (DelayScript.script_tiers p)) /\
  exists r,
    NtfyNotificationTier.send_notification push title message w st
    = (r, ext st [Called request (w (log st) request)]).
Proof.
  intro Hparse. cbv zeta.
  destruct (parse_fields _ p Hparse) as (Htitle & Hmessage & _ & _ & Htiers).
  simpl in Htitle, Hmessage, Htiers.
  split.
  - apply Forall_forall. intros c Hc. rewrite Htiers in Hc.
    unfold expected_posts, TieredNotifier.snapshot in Hc.
    apply in_map_iff in Hc as ([name config] & <- & Hin).
    apply filter_In in Hin as [Hin Hname].
    apply in_map_iff in Hin as (name' & Heq & _).
    inversion Heq. subst name' config.
    unfold is_ntfy in Hname. simpl in Hname.
    apply String.eqb_eq in Hname. subst name.
    unfold DelayScript.post_for. rewrite Htitle, Hmessage. reflexivity.
  - unfold NtfyNotificationTier.send_notification, try_, bind, push_request.
    rewrite requests_run.
    destruct (w (log st) _) as [n | e]; [| destruct e];
      eexists; reflexivity.
Qed.

Lemma delayed_push_matches_immediate_push_witness :
  Forall (eq (default_post "Build" "done"))
    (expected_posts
       {| DelayScript.script_title := "Build";
          DelayScript.script_message := "done";
          DelayScript.script_session_id := "s1";
          DelayScript.script_delay := 30;
          DelayScript.script_tiers := [("ntfy", [])] |}
       [("ntfy", [])]).
Proof.
  destruct (delayed_push_matches_immediate_push
              default_config "Build" "done" "s1"
              {| DelayScript.script_title := "Build";
                 DelayScript.script_message := "done";
                 DelayScript.script_session_id := "s1";
                 DelayScript.script_delay := 30;
                 DelayScript.script_tiers := [("ntfy", [])] |}
              healthy (start Missing) eq_refl) as [H _].
  exact H.
Defined.

(** ** Footprints *)

Lemma ext_inj (st : state) (d1 d2 : list effect) :
  ext st d1 = ext st d2 -> d1 = d2.
Proof.
  unfold ext. intro H. inversion H as [Hlog]. now apply app_inv_head in Hlog.
Qed.

Lemma macos_footprint : tier_footprint "macos" MacOSNotificationTier.new.
Proof.
  split.
  - intros title message w st. simpl.
    unfold MacOSNotificationTier.send_notification, try_, bind.
    rewrite subprocess_run_run.
    destruct (w (log st) (RunTerminalNotifier title message)) as [[| p | p] | e];
      [answer; simpl; intuition | | |].
    1, 2: unfold except_; simpl; rewrite subprocess_run_run, ext_ext;
      destruct (w _ (RunOsascript title message)) as [[| q | q] | e2];
      [| | | destruct e2]; answer; simpl; intuition discriminate.
    destruct e; unfold except_; simpl;
      try (answer; simpl; intuition discriminate).
    rewrite subprocess_run_run, ext_ext.
    destruct (w _ (RunOsascript title message)) as [[| q | q] | e2];
      [| | | destruct e2]; answer; simpl; intuition discriminate.
  - intros w st. simpl.
    unfold MacOSNotificationTier.is_available, try_, bind.
    rewrite subprocess_run_run.
    destruct (w (log st) RunOsascriptProbe) as [[| p | p] | e];
      [| | | destruct e]; answer; simpl; intuition discriminate.
Qed.

Lemma ntfy_footprint (config : dict) :
  tier_footprint "ntfy" (NtfyNotificationTier.new config).
Proof.
  split.
  - intros title message w st. simpl.
    unfold NtfyNotificationTier.send_notification, try_, bind.
    rewrite requests_run.
    destruct (w (log st) _) as [n | e]; [| destruct e];
      answer; simpl; try (intuition discriminate).
    rewrite orb_false_r. destruct (Z.eqb n 200); intuition discriminate.
  - intros w st. simpl.
    unfold NtfyNotificationTier.is_available, try_, bind.
    rewrite requests_run.
    destruct (w (log st) _) as [n | e]; [| destruct e];
      answer; simpl; try (intuition discriminate).
    rewrite orb_false_r. repeat split; auto.
    + intro H. inversion H. reflexivity.
    + intros H a. inversion H as [Hn]. unfold probed. simpl. now rewrite Hn.
Qed.

Lemma init_footprint (cfg : NotificationConfig) (name : string) (t : NotificationTier.t) :
  dict_get name (TieredNotifier.tiers (TieredNotifier.init cfg)) = Some t ->
  tier_footprint name t.
Proof.
  unfold TieredNotifier.init. simpl.
  destruct (String.eqb name "macos") eqn:E1.
  - apply String.eqb_eq in E1. subst. intro H. inversion H. apply macos_footprint.
  - destruct (String.eqb name "ntfy") eqn:E2; [| discriminate].
    apply String.eqb_eq in E2. subst. intro H. inversion H. apply ntfy_footprint.
Qed.

Lemma called_by_incl (names : list string) (name : string) (delta : list effect) :
  In name names ->
  forallb (called_by [name]) delta = true ->
  forallb (called_by names) delta = true.
Proof.
  intros Hin H. apply forallb_forall. intros e He.
  apply (proj1 (forallb_forall _ _) H) in He.
  destruct e as [c o | |]; simpl in *; auto.
  rewrite orb_false_r in He. apply String.eqb_eq in He. rewrite He.
  now apply mem_In.
Qed.

Lemma called_by_more (names : list string) (name : string) (delta : list effect) :
  forallb (called_by names) delta = true ->
  forallb (called_by (name :: names)) delta = true.
Proof.
  intro H. apply forallb_forall. intros e He.
  apply (proj1 (forallb_forall _ _) H) in He.
  destruct e as [c o | |]; [| reflexivity | reflexivity].
  unfold called_by, mem in *. simpl. rewrite He. apply orb_true_r.
Qed.

Lemma sends_follow_probes_app (a : option string) (d1 d2 : list effect) :
  sends_follow_probes a (d1 ++ d2)
  = sends_follow_probes a d1 && sends_follow_probes (available_after a d1) d2.
Proof.
  revert a. induction d1 as [| e rest IH]; intro a; simpl; [reflexivity |].
  rewrite IH. now rewrite andb_assoc.
Qed.

Lemma sends_follow_probes_cons
  (a : option string) (e : effect) (rest : list effect) :
  sends_follow_probes a (e :: rest)
  = (if is_send e then
       match a with
       | Some name => String.eqb (tier_of e) name
       | None => false
       end
     else true) && sends_follow_probes (probed a e) rest.
Proof. reflexivity. Qed.

Lemma no_send_follows (a : option string) (delta : list effect) :
  existsb is_send delta = false -> sends_follow_probes a delta = true.
Proof.
  revert a. induction delta as [| e rest IH]; intro a; simpl; [auto |].
  intro H. apply orb_false_iff in H as [He Hrest].
  rewrite He. simpl. now apply IH.
Qed.

(** One turn of the loop of the router made by [__init__]: the calls are
    those of the tier named, and a send follows a probe of that tier that
    succeeded. *)
Lemma immediate_turn_footprint
  (cfg : NotificationConfig) (title message : string)
  (acc : bool) (name : string) (w : World) (st : state) :
  exists delta r,
    TieredNotifier.immediate_turn (TieredNotifier.init cfg) title message acc name w st
    = (r, ext st delta) /\
    forallb (called_by [name]) delta = true /\
    (existsb probe_ok delta = false -> existsb is_send delta = false) /\
    (forall a, sends_follow_probes a delta = true).
Proof.
  unfold TieredNotifier.immediate_turn.
  destruct (dict_get name (TieredNotifier.tiers (TieredNotifier.init cfg)))
    as [t |] eqn:Hget.
  - destruct (init_footprint cfg name t Hget) as [Hsend Havail].
    destruct (Havail w st) as (d1 & r1 & E1 & _ & S1 & B1 & P1 & A1).
    unfold bind. rewrite E1.
    destruct r1 as [[|] | e].
    + destruct (Hsend title message w (ext st d1))
        as (d2 & r2 & E2 & _ & _ & B2 & _ & F2).
      rewrite E2, ext_ext. exists (d1 ++ d2).
      destruct r2 as [sent | e]; eexists; (split; [reflexivity |]);
        rewrite forallb_app, B1, B2; (split; [reflexivity |]);
        (split; [rewrite existsb_app, (P1 eq_refl); discriminate |]);
        intro a;
        now rewrite sends_follow_probes_app, (no_send_follows a d1 S1),
          (A1 eq_refl a), F2.
    + exists d1. eexists. split; [reflexivity |]. split; [exact B1 |].
      split; [auto |]. intro a. now apply no_send_follows.
    + exists d1. eexists. split; [reflexivity |]. split; [exact B1 |].
      split; [auto |]. intro a. now apply no_send_follows.
  - exists []. eexists. unfold ret. rewrite ext_nil.
    split; [reflexivity |]. split; [reflexivity |]. split; reflexivity.
Qed.

Lemma immediate_loop_footprint
  (cfg : NotificationConfig) (title message : string)
  (names : list string) (acc : bool) (w : World) (st : state) :
  exists delta r,
    for_each names acc
      (TieredNotifier.immediate_turn (TieredNotifier.init cfg) title message) w st
    = (r, ext st delta) /\
    forallb (called_by names) delta = true /\
    (existsb probe_ok delta = false -> existsb is_send delta = false) /\
    (forall a, sends_follow_probes a delta = true).
Proof.
  revert acc st. induction names as [| name rest IH]; intros acc st.
  - exists []. eexists. simpl. unfold ret. rewrite ext_nil.
    split; [reflexivity |]. split; [reflexivity |]. split; reflexivity.
  - rewrite for_each_cons.
    destruct (immediate_turn_footprint cfg title message acc name w st)
      as (d1 & r1 & E1 & B1 & P1 & F1).
    unfold bind. rewrite E1.
    destruct r1 as [acc' | e].
    + destruct (IH acc' (ext st d1)) as (d2 & r2 & E2 & B2 & P2 & F2).
      rewrite E2, ext_ext. exists (d1 ++ d2), r2.
      split; [reflexivity |]. split; [| split].
      * rewrite forallb_app.
        rewrite (called_by_incl (name :: rest) name d1) by (now left || exact B1).
        now rewrite (called_by_more rest name d2).
      * rewrite !existsb_app. intro H. apply orb_false_iff in H as [H1 H2].
        now rewrite (P1 H1), (P2 H2).
      * intro a. now rewrite sends_follow_probes_app, F1, F2.
    + exists d1. eexists. split; [reflexivity |].
      split; [| split; [exact P1 | exact F1]].
      apply (called_by_incl (name :: rest) name d1); [now left | exact B1].
Qed.

Lemma no_call_no_footprint (names : list string) (delta : list effect) :
  existsb is_called delta = false ->
  forallb (called_by names) delta = true /\
  existsb is_send delta = false /\
  existsb probe_ok delta = false.
Proof.
  induction delta as [| e rest IH]; simpl; [auto |].
  intro H. apply orb_false_iff in H as [He Hrest].
  destruct (IH Hrest) as (H1 & H2 & H3). rewrite H1, H2, H3.
  destruct e; simpl in *; auto; discriminate.
Qed.

Lemma handoff_calls_nothing
  (s : TieredNotifier.self) (title message : string) (session_id : option string) :
  existsb is_called (handoff s title message session_id) = false.
Proof.
  unfold handoff. destruct session_id as [sid |]; [| reflexivity].
  destruct (truthy (Some sid) && nonempty (delayed_tiers (TieredNotifier.config s)));
    reflexivity.
Qed.

Lemma warning_calls_nothing (b : bool) : existsb is_called (warning b) = false.
Proof. destruct b; reflexivity. Qed.

(** The whole call of the router made by [__init__]. *)
Lemma send_tiered_footprint
  (cfg : NotificationConfig) (title message : string)
  (session_id : option string) (w : World) (st : state) :
  exists delta r,
    TieredNotifier.send_tiered_notification
      (TieredNotifier.init cfg) title message session_id w st
    = (r, ext st delta) /\
    forallb (called_by (TieredNotifier.immediate_tiers cfg)) delta = true /\
    (existsb probe_ok delta = false -> existsb is_send delta = false) /\
    (forall a, sends_follow_probes a delta = true).
Proof.
  destruct (send_tiered_notification_spec (TieredNotifier.init cfg)
              (init_registry_ok cfg) title message w session_id st)
    as (delta & r & E & _ & Hrun).
  destruct (immediate_loop_footprint cfg title message
              (TieredNotifier.immediate_tiers cfg) false w st)
    as (delta' & r' & E' & B & P & F).
  simpl TieredNotifier.config in E. rewrite E in E'.
  inversion E' as [[Hr Hd]]. apply app_inv_head in Hd. subst delta' r'.
  destruct r as [b | e].
  - destruct Hrun as [_ Hrun]. do 2 eexists. split; [exact Hrun |].
    destruct (no_call_no_footprint (TieredNotifier.immediate_tiers cfg) _
                (handoff_calls_nothing (TieredNotifier.init cfg)
                   title message session_id)) as (H1 & H2 & H3).
    destruct (no_call_no_footprint (TieredNotifier.immediate_tiers cfg) _
                (warning_calls_nothing b)) as (W1 & W2 & W3).
    rewrite !forallb_app, !existsb_app, B, H1, H2, H3, W1, W2, W3.
    split; [reflexivity |]. rewrite !orb_false_r. split; [exact P |].
    intro a. rewrite !sends_follow_probes_app, F.
    now rewrite (no_send_follows _ _ H2), (no_send_follows _ _ W2).
  - do 2 eexists. split; [exact Hrun |].
    split; [exact B | split; [exact P | exact F]].
Qed.

(** The router contacts immediate tiers only.  Every call
    [send_tiered_notification] makes belongs to a tier that is enabled and
    not delayed: a disabled tier and a delayed tier are neither probed nor
    sent through during the call, and the activity store is not touched. *)
Theorem router_calls_immediate_tiers_only
  (cfg : NotificationConfig) (title message : string)
  (session_id : option string) (w : World) (st : state) :
  exists delta r,
    TieredNotifier.send_tiered_notification
      (TieredNotifier.init cfg) title message session_id w st
    = (r, ext st delta) /\
    forall c o, In (Called c o) delta ->
      In (tier_of_call c) (enabled_tiers cfg) /\
      ~ In (tier_of_call c) (delayed_tiers cfg).
Proof.
  destruct (send_tiered_footprint cfg title message session_id w st)
    as (delta & r & E & B & _).
  exists delta, r. split; [exact E |].
  intros c o Hin.
  apply (proj1 (forallb_forall _ _) B) in Hin. simpl in Hin.
  apply mem_In in Hin. unfold TieredNotifier.immediate_tiers in Hin.
  apply filter_In in Hin as [Henabled Hnot]. split; [exact Henabled |].
  intro Hdelayed. apply mem_In in Hdelayed. rewrite Hdelayed in Hnot. discriminate.
Qed.

(** The router sends only through tiers it found available.  Every send
    of a call goes through the tier whose probe came last before it, and
    that probe succeeded (exit code 0 of the [osascript] probe, status
    200 of the GET); so when no probe of the call succeeded, no send is
    attempted. *)
Theorem no_send_without_successful_probe
  (cfg : NotificationConfig) (title message : string)
  (session_id : option string) (w : World) (st : state) :
  exists delta r,
    TieredNotifier.send_tiered_notification
      (TieredNotifier.init cfg) title message session_id w st
    = (r, ext st delta) /\
    sends_follow_probes None delta = true /\
    (forall before c o after,
       delta = before ++ Called c o :: after ->
       is_send (Called c o) = true ->
       available_after None before = Some (tier_of_call c)) /\
    (existsb probe_ok delta = false -> existsb is_send delta = false).
Proof.
  destruct (send_tiered_footprint cfg title message session_id w st)
    as (delta & r & E & _ & P & F).
  exists delta, r. split; [exact E |]. split; [apply F |]. split; [| exact P].
  intros before c o after Hdelta Hsend.
  specialize (F None). rewrite Hdelta, sends_follow_probes_app in F.
  apply andb_true_iff in F as [_ F]. rewrite sends_follow_probes_cons in F.
  rewrite Hsend in F. apply andb_true_iff in F as [F _].
  destruct (available_after None before) as [name |]; [| discriminate].
  simpl in F. apply String.eqb_eq in F. now subst.
Qed.

(** [send_notification] of the router made by [__init__] deals with one
    tier, the one named or the default one.  It answers true exactly when
    a send was confirmed, calls nothing but that tier, calls nothing at
    all and answers false for a tier that is not enabled, and sends only
    after a probe that succeeded. *)
Theorem single_tier_send
  (cfg : NotificationConfig) (title message : string) (tier : option string)
  (w : World) (st : state) :
  let name := match tier with Some n => n | None => default_tier cfg end in
  exists delta r,
    TieredNotifier.send_notification
      (TieredNotifier.init cfg) title message tier w st
    = (r, ext st delta) /\
    (r = Ret true <-> existsb delivered delta = true) /\
    forallb (called_by [name]) delta = true /\
    (mem name (enabled_tiers cfg) = false ->
     r = Ret false /\ existsb is_called delta = false) /\
    (existsb probe_ok delta = false -> existsb is_send delta = false).
Proof.
  cbv zeta. unfold TieredNotifier.send_notification.
  change (TieredNotifier.config (TieredNotifier.init cfg)) with cfg.
  set (name := match tier with Some n => n | None => _ end).
  destruct (dict_get name (TieredNotifier.tiers (TieredNotifier.init cfg)))
    as [t |] eqn:Hget.
  - destruct (mem name (enabled_tiers cfg)) eqn:Henabled; cbn [negb].
    + destruct (init_footprint cfg name t Hget) as [Hsend Havail].
      destruct (Havail w st) as (d1 & r1 & E1 & _ & S1 & B1 & P1 & _).
      unfold bind at 1. rewrite E1.
      destruct r1 as [[|] | e]; cbn [negb].
      * destruct (Hsend title message w (ext st d1))
          as (d2 & r2 & E2 & _ & D2 & B2 & _).
        rewrite E2, ext_ext. exists (d1 ++ d2), r2.
        split; [reflexivity |].
        rewrite existsb_app, (no_send_no_delivery _ S1), forallb_app, B1, B2.
        simpl. split; [now symmetry |]. split; [reflexivity |].
        split; [discriminate |].
        rewrite existsb_app, (P1 eq_refl). discriminate.
      * unfold bind, ret. rewrite emit_run, ext_ext.
        do 2 eexists. split; [reflexivity |].
        rewrite !existsb_app, (no_send_no_delivery _ S1), forallb_app, B1, S1.
        simpl. split; [split; discriminate |]. split; [reflexivity |].
        split; [discriminate | reflexivity].
      * do 2 eexists. split; [reflexivity |].
        rewrite (no_send_no_delivery _ S1), B1.
        split; [split; discriminate |]. split; [reflexivity |].
        split; [discriminate | intros _; exact S1].
    + unfold bind, ret. rewrite emit_run.
      do 2 eexists. split; [reflexivity |]. simpl.
      split; [split; discriminate |]. repeat split.
  - unfold bind, ret. rewrite emit_run.
    do 2 eexists. split; [reflexivity |]. simpl.
    split; [split; discriminate |]. repeat split.
Qed.

(** ** Registering tiers *)

(** [register_tier] is an assignment in the registry: the name now gives
    the new tier, replacing any tier registered under it before, every
    other name gives what it gave, and the configuration is unchanged. *)
Theorem register_tier_lookup
  (s : TieredNotifier.self) (name other : string) (tier : NotificationTier.t) :
  let s' := register_tier s name tier in
  TieredNotifier.config s' = TieredNotifier.config s /\
  dict_get name (TieredNotifier.tiers s') = Some tier /\
  dict_get other (TieredNotifier.tiers s')
  = (if String.eqb other name then Some tier
     else dict_get other (TieredNotifier.tiers s)) /\
  map fst (TieredNotifier.tiers s')
  = map fst (TieredNotifier.tiers s)
    ++ (if mem name (map fst (TieredNotifier.tiers s)) then [] else [name]).
Proof.
  cbv zeta. unfold register_tier. simpl.
  split; [reflexivity |]. split; [apply dict_get_set_same |]. split.
  - destruct (String.eqb other name) eqn:E.
    + apply String.eqb_eq in E. subst. apply dict_get_set_same.
    + apply dict_get_set_other. intro Heq. subst.
      now rewrite String.eqb_refl in E.
  - apply dict_set_keys.
Qed.

Lemma tier_footprint_ok (name : string) (t : NotificationTier.t) :
  tier_footprint name t -> tier_ok t.
Proof.
  intros [Hsend Havail]. split.
  - intros title message w st.
    destruct (Hsend title message w st) as (delta & r & E & C & D & _).
    exists delta, r. auto.
  - intros w st.
    destruct (Havail w st) as (delta & r & E & C & S & _).
    exists delta, r. auto.
Qed.

Lemma silent_tier_ok : tier_ok silent_tier.
Proof.
  split.
  - intros title message w st. exists [], (Ret false).
    simpl. unfold ret. rewrite ext_nil.
    split; [reflexivity |]. split; [reflexivity |]. split; discriminate.
  - intros w st. exists [], (Ret true). simpl. unfold ret. rewrite ext_nil.
    split; [reflexivity |]. split; reflexivity.
Qed.

Lemma register_tier_ok
  (s : TieredNotifier.self) (name : string) (tier : NotificationTier.t) :
  registry_ok s -> tier_ok tier -> registry_ok (register_tier s name tier).
Proof.
  intros Hs Ht other t. unfold register_tier. simpl.
  destruct (String.eqb other name) eqn:E.
  - apply String.eqb_eq in E. subst. rewrite dict_get_set_same.
    intro H. inversion H. now subst.
  - rewrite dict_get_set_other.
    + apply Hs.
    + intro Heq. subst. now rewrite String.eqb_refl in E.
Qed.

(** The inclusive or survives [register_tier].  For a router whose tiers
    keep the contract of [NotificationTier] (only calls are logged, true
    exactly on a confirmed send, no send from [is_available]) and a new
    tier that keeps it too, whenever [send_tiered_notification] returns
    after the registration its flag is the inclusive or of the confirmed
    sends. *)
Theorem registered_tiers_keep_the_flag
  (s : TieredNotifier.self) (name : string) (tier : NotificationTier.t)
  (title message : string) (session_id : option string)
  (w : World) (st : state) :
  registry_ok s ->
  tier_ok tier ->
  exists delta r,
    TieredNotifier.send_tiered_notification
      (register_tier s name tier) title message session_id w st
    = (r, ext st delta) /\
    forall b, r = Ret b -> b = existsb delivered delta.
Proof.
  intros Hs Ht.
  destruct (send_tiered_notification_spec (register_tier s name tier)
              (register_tier_ok s name tier Hs Ht) title message w session_id st)
    as (delta & r & _ & _ & Hrun).
  destruct r as [b | e].
  - destruct Hrun as [Hb Hrun]. do 2 eexists. split; [exact Hrun |].
    intros b' Hb'. inversion Hb'. subst b'.
    rewrite !existsb_app, handoff_delivers_nothing, warning_delivers_nothing.
    now rewrite !orb_false_r.
  - do 2 eexists. split; [exact Hrun |]. discriminate.
Qed.

Lemma registered_tiers_keep_the_flag_witness :
  exists delta r,
    TieredNotifier.send_tiered_notification
      (register_tier (TieredNotifier.init default_config) "macos" silent_tier)
      "Build" "done" None healthy (start Missing)
    = (r, ext (start Missing) delta) /\
    forall b, r = Ret b -> b = existsb delivered delta.
Proof.
  apply (registered_tiers_keep_the_flag
           (TieredNotifier.init default_config) "macos" silent_tier
           "Build" "done" None healthy (start Missing)).
  - apply init_registry_ok.
  - apply silent_tier_ok.
Defined.

(** ** More on the delayed task *)




(** ** The hook and the task together *)

Lemma started_tasks_app (d1 d2 : list effect) :
  started_tasks (d1 ++ d2) = started_tasks d1 ++ started_tasks d2.
Proof. unfold started_tasks. apply flat_map_app. Qed.

Lemma calls_start_no_task (delta : list effect) :
  forallb is_called delta = true -> started_tasks delta = [].
Proof.
  induction delta as [| e rest IH]; simpl; [auto |].
  intro H. apply andb_true_iff in H as [He Hrest].
  rewrite (IH Hrest). destruct e; simpl in *; auto; discriminate.
Qed.



Lemma warning_starts_no_task (b : bool) : started_tasks (warning b) = [].
Proof. destruct b; reflexivity. Qed.

(** The tasks a notification event starts are those of the hand-off. *)
Lemma main_notification_tasks
  (cfg : NotificationConfig) (now : Q) (ev : hook_event) (w : World) (f : file) :
  has_tool_name ev || has_stop_hook_active ev = false ->
  let tasks := started_tasks (log (snd (main cfg now (Object ev) w f))) in
  tasks = [] \/
  tasks = started_tasks
            (handoff (TieredNotifier.init cfg)
               (default_to "Claude Code" (get_title ev))
               (default_to "Notification" (get_message ev))
               (get_session_id ev)).
Proof.
  intro Hflag. cbv zeta.
  rewrite (main_notification cfg now ev w f Hflag). cbv zeta.
  destruct (send_tiered_notification_spec (TieredNotifier.init cfg)
              (init_registry_ok cfg)
              (default_to "Claude Code" (get_title ev))
              (default_to "Notification" (get_message ev))
              w (get_session_id ev) (start f))
    as (delta & r & _ & Hcalls & Hrun).
  apply calls_start_no_task in Hcalls.
  destruct r as [b | e].
  - destruct Hrun as [_ Hrun]. rewrite Hrun. right.
    assert (Hall : forall h x m,
      started_tasks (([] ++ delta ++ h ++ warning b) ++ [Printed x m])
      = started_tasks h).
    { intros h x m.
      rewrite !started_tasks_app, Hcalls, warning_starts_no_task. simpl.
      now rewrite !app_nil_r. }
    destruct b; cbv beta iota; unfold ext, start; cbn [snd log]; apply Hall.
  - rewrite Hrun. left.
    destruct e; cbv beta iota; unfold ext, start; cbn [snd log];
      rewrite !started_tasks_app, Hcalls; reflexivity.
Qed.

(** One run of [main] starts at most one delayed task, and only for a
    notification event that carries a non-empty session identifier while
    delayed tiers are configured; the task carries the title and message
    of the event (or their defaults), its session identifier, and the
    configured delay. *)
Theorem main_starts_at_most_one_task
  (cfg : NotificationConfig) (now : Q) (input : hook_input)
  (w : World) (f : file) :
  let tasks := started_tasks (log (snd (main cfg now input w f))) in
  (length tasks <= 1)%nat /\
  forall t, In t tasks ->
    exists ev,
      input = Object ev /\
      has_tool_name ev || has_stop_hook_active ev = false /\
      get_session_id ev = Some (task_session_id t) /\
      task_session_id t <> "" /\
      task_title t = default_to "Claude Code" (get_title ev) /\
      task_message t = default_to "Notification" (get_message ev) /\
      task_delay_seconds t = delay_seconds cfg /\
      delayed_tiers cfg <> [].
Proof.
  cbv zeta.
  destruct input as [e | | v | ev].
  - destruct e; (split; [simpl; lia | intros t []]).
  - split; [simpl; lia | intros t []].
  - destruct v; (split; [simpl; lia | intros t []]).
  - destruct (has_tool_name ev || has_stop_hook_active ev) eqn:Hflag.
    + destruct (main_activity_quiet cfg now ev w f Hflag) as (_ & -> & _).
      split; [simpl; lia | intros t []].
    + destruct (main_notification_tasks cfg now ev w f Hflag) as [-> | ->];
        [split; [simpl; lia | intros t []] |].
      unfold handoff.
      destruct (get_session_id ev) as [sid |] eqn:Hsid;
        [| split; [simpl; lia | intros t []]].
      simpl truthy.
      destruct (String.eqb sid "") eqn:Hempty;
        [split; [simpl; lia | intros t []] |].
      simpl TieredNotifier.config.
      destruct (delayed_tiers cfg) as [| d ds] eqn:Hdelayed;
        [split; [simpl; lia | intros t []] |].
      split; [simpl; lia |].
      intros t [<- | []]. exists ev. simpl.
      split; [reflexivity |]. split; [exact Hflag |]. split; [exact Hsid |].
      split; [now apply String.eqb_neq |].
      split; [reflexivity |]. split; [reflexivity |]. split; [reflexivity |].
      discriminate.
Qed.

(** ** The wrapper *)

Lemma main_status_bit
  (cfg : NotificationConfig) (now : Q) (input : hook_input)
  (w : World) (f : file) :
  fst (main cfg now input w f) = 0%Z \/ fst (main cfg now input w f) = 1%Z.
Proof.
  destruct input as [e | | v | ev].
  - destruct e; now right.
  - now right.
  - destruct v; now right.
  - destruct (has_tool_name ev || has_stop_hook_active ev) eqn:Hflag.
    + apply (main_activity_quiet cfg now ev w f Hflag).
    + rewrite (main_notification cfg now ev w f Hflag). cbv zeta.
      destruct (TieredNotifier.send_tiered_notification _ _ _ _ _ _)
        as [[[|] | e] st]; [now left | now right |].
      destruct e; now right.
Qed.

(** The wrapper hands the notifier's verdict on.  When the [uv] command
    ends with the exit status of [main], the wrapper exits with that same
    status, 0 or 1; when starting the command raises, it exits with
    status 1 and reports the exception; in every case its status is one a
    process can have, between 0 and 255. *)
Theorem wrapper_passes_status_through
  (cfg : NotificationConfig) (now : Q) (input : hook_input)
  (w : World) (f : file) (child : outcome) (e : exn) :
  Wrapper.main (Code (fst (main cfg now input w f)))
  = (fst (main cfg now input w f), None) /\
  Wrapper.main (Fails e) = (1%Z, Some e) /\
  (0 <= fst (Wrapper.main child) < 256)%Z.
Proof.
  split; [| split].
  - destruct (main_status_bit cfg now input w f) as [-> | ->]; reflexivity.
  - reflexivity.
  - destruct child as [n | e']; simpl; unfold Wrapper.sys_exit;
      apply Z.mod_pos_bound; reflexivity.
Qed.

(** ** Loading the configuration *)

Lemma load_config_object (d : dict) :
  _load_config (Holds (JObj d))
  = if forallb (fun kv => mem (fst kv) Dataclass.field_names) d then
      match dict_get "enabled_tiers" d with
      | Some enabled =>
          Ret (Dataclass.__post_init__ {|
            Dataclass.enabled_tiers := enabled;
            Dataclass.default_tier :=
              dict_get_default "default_tier" (JStr "macos") d;
            Dataclass.tier_configs := dict_get_default "tier_configs" JNull d;
            Dataclass.delayed_tiers := dict_get_default "delayed_tiers" JNull d;
            Dataclass.delay_seconds :=
              dict_get_default "delay_seconds" (JInt 30) d
          |})
      | None => Ret Dataclass.default
      end
    else Ret Dataclass.default.
Proof.
  unfold _load_config, Dataclass.new, rbind. cbn [exists_ json_load].
  destruct (forallb (fun kv => mem (fst kv) Dataclass.field_names) d);
    [| reflexivity].
  destruct (dict_get "enabled_tiers" d); reflexivity.
Qed.

Lemma load_config_unreadable (e : exn) :
  _load_config (Unreadable e)
  = if caught e then Ret Dataclass.default else Raise e.
Proof. destruct e; reflexivity. Qed.

(** [_load_config] falls back to the built-in defaults whenever the file
    is missing, is not JSON, holds a value that is not an object, holds an
    object with a key that is no field, or holds an object without
    [enabled_tiers]; the defaults enable the desktop and the push tier,
    delay the push tier and wait 30 seconds.  When opening or decoding
    the file raises, the fallback is taken for [JSONDecodeError] and
    [TypeError] only: any other error leaves [_load_config]. *)
Theorem load_config_falls_back (config_file : file) :
  accepted config_file = false ->
  _load_config config_file
  = match config_file with
    | Unreadable e => if caught e then Ret Dataclass.default else Raise e
    | _ => Ret Dataclass.default
    end /\
  as_config Dataclass.default = Some default_config.
Proof.
  intro H. split; [| reflexivity].
  destruct config_file as [| | | e | v]; try reflexivity.
  destruct v; try reflexivity.
  rewrite load_config_object. unfold accepted in H.
  destruct (forallb (fun kv => mem (fst kv) Dataclass.field_names) fields);
    [| reflexivity].
  destruct (dict_get "enabled_tiers" fields); [discriminate | reflexivity].
Qed.

Lemma load_config_falls_back_witness :
  _load_config (Holds (JObj [("enabled", JArr [JStr "macos"])]))
  = Ret Dataclass.default /\
  _load_config (Unreadable UnicodeDecodeError) = Raise UnicodeDecodeError.
Proof.
  split.
  - apply (load_config_falls_back
             (Holds (JObj [("enabled", JArr [JStr "macos"])]))).
    reflexivity.
  - apply (load_config_falls_back (Unreadable UnicodeDecodeError)).
    reflexivity.
Defined.

(** The configuration [_load_config] returns is complete: [tier_configs]
    and [delayed_tiers] are never [None].  It raises only when opening or
    decoding the file raises an error that is neither [JSONDecodeError]
    nor [TypeError], and then it raises that error. *)
Theorem loaded_config_is_complete (config_file : file) :
  match _load_config config_file with
  | Ret config =>
      is_None (Dataclass.tier_configs config) = false /\
      is_None (Dataclass.delayed_tiers config) = false
  | Raise e => config_file = Unreadable e /\ caught e = false
  end.
Proof.
  assert (Hdefault :
    is_None (Dataclass.tier_configs Dataclass.default) = false /\
    is_None (Dataclass.delayed_tiers Dataclass.default) = false).
  { split; reflexivity. }
  destruct config_file as [| | | e | v]; try exact Hdefault.
  - rewrite load_config_unreadable.
    destruct (caught e) eqn:He; [exact Hdefault | auto].
  - destruct v; try exact Hdefault.
    rewrite load_config_object.
    destruct (forallb (fun kv => mem (fst kv) Dataclass.field_names) fields);
      [| exact Hdefault].
    destruct (dict_get "enabled_tiers" fields) as [enabled |];
      [| exact Hdefault].
    simpl.
    destruct (dict_get_default "tier_configs" JNull fields);
      destruct (dict_get_default "delayed_tiers" JNull fields); split; reflexivity.
Qed.

(** The delayed tiers of an accepted configuration file: the push tier
    when the file leaves [delayed_tiers] out or gives [null], and the
    given value otherwise, so that only an explicit empty list switches
    the delayed path off.  The other fields are taken as given, with
    "macos" and 30 for a missing [default_tier] and [delay_seconds]. *)
Theorem delayed_tiers_default (d : dict) :
  accepted (Holds (JObj d)) = true ->
  exists config,
    _load_config (Holds (JObj d)) = Ret config /\
    Dataclass.delayed_tiers config
    = match dict_get "delayed_tiers" d with
      | None | Some JNull => JArr [JStr "ntfy"]
      | Some v => v
      end /\
    Some (Dataclass.enabled_tiers config) = dict_get "enabled_tiers" d /\
    Dataclass.default_tier config
    = dict_get_default "default_tier" (JStr "macos") d /\
    Dataclass.delay_seconds config
    = dict_get_default "delay_seconds" (JInt 30) d.
Proof.
  intro Hacc. unfold accepted in Hacc.
  apply andb_true_iff in Hacc as [Hkeys Henabled].
  rewrite load_config_object, Hkeys.
  destruct (dict_get "enabled_tiers" d) as [enabled |]; [| discriminate].
  eexists. split; [reflexivity |]. simpl.
  split; [| split; [reflexivity | split; reflexivity]].
  unfold dict_get_default.
  destruct (dict_get "delayed_tiers" d) as [v |]; [| reflexivity].
  destruct v; reflexivity.
Qed.

Lemma delayed_tiers_default_witness :
  exists config,
    _load_config
      (Holds (JObj [("enabled_tiers", JArr [JStr "macos"; JStr "ntfy"]);
                    ("delayed_tiers", JArr [])]))
    = Ret config /\
    as_config config
    = Some {| enabled_tiers := ["macos"; "ntfy"];
              default_tier := "macos";
              tier_configs := [];
              delayed_tiers := [];
              delay_seconds := 30 |}.
Proof.
  destruct (delayed_tiers_default
              [("enabled_tiers", JArr [JStr "macos"; JStr "ntfy"]);
               ("delayed_tiers", JArr [])] eq_refl)
    as (config & Hload & _).
  exists config. split; [exact Hload |].
  vm_compute in Hload. inversion Hload. reflexivity.
Defined.

(** ** The idle check across the program *)

(** The check the delayed script makes inline is the check of
    [SessionTracker.is_session_idle].  For a task whose text the template
    reads as itself, the script looks up the session identifier of the
    task and compares with its delay: on every file and at every time it
    answers what [is_session_idle] answers for that session and
    threshold. *)
Theorem script_check_agrees_with_tracker
  (t : delayed_task) (p : DelayScript.script) (f : file) (now : Q) :
  DelayScript.parse t = Some p ->
  DelayScript.is_idle p f now
  = SessionTracker.is_session_idle
      f (task_session_id t) (task_delay_seconds t) now.
Proof.
  intro Hparse.
  destruct (parse_fields t p Hparse) as (_ & _ & Hsid & Hdelay & _).
  rewrite script_is_idle_eq. now rewrite Hsid, Hdelay.
Qed.

Lemma script_check_agrees_with_tracker_witness :
  DelayScript.is_idle three_delayed_script (Holds (JObj [("s1", JNum 100)])) 120
  = SessionTracker.is_session_idle (Holds (JObj [("s1", JNum 100)])) "s1" 30 120.
Proof.
  apply (script_check_agrees_with_tracker three_delayed_task three_delayed_script
           (Holds (JObj [("s1", JNum 100)])) 120).
  reflexivity.
Defined.





(** The warning of the router tells whether anything was delivered: when
    [send_tiered_notification] returns, "No immediate notification tiers
    available" is printed exactly when it returns false, that is when no
    send of the call was confirmed. *)
Theorem warning_exactly_when_nothing_delivered
  (cfg : NotificationConfig) (title message : string)
  (session_id : option string) (w : World) (st : state) :
  exists delta r,
    TieredNotifier.send_tiered_notification
      (TieredNotifier.init cfg) title message session_id w st
    = (r, ext st delta) /\
    forall b, r = Ret b ->
      (In (Printed Stderr NoImmediateTiers) delta <-> b = false) /\
      (b = false <-> existsb delivered delta = false).
Proof.
  destruct (send_tiered_notification_spec (TieredNotifier.init cfg)
              (init_registry_ok cfg) title message w session_id st)
    as (delta & r & _ & Hcalls & Hrun).
  destruct r as [b | e].
  - destruct Hrun as [Hb Hrun]. do 2 eexists. split; [exact Hrun |].
    intros b' Hb'. inversion Hb'. subst b'. split.
    + assert (Hdelta : ~ In (Printed Stderr NoImmediateTiers) delta).
      { intro Hin. apply (proj1 (forallb_forall _ _) Hcalls) in Hin. discriminate. }
      assert (Hhand : ~ In (Printed Stderr NoImmediateTiers)
                        (handoff (TieredNotifier.init cfg) title message session_id)).
      { unfold handoff. destruct session_id as [sid |]; [| tauto].
        destruct (truthy (Some sid) && nonempty _); simpl; [| tauto].
        intros [H | []]. discriminate. }
      rewrite !in_app_iff. destruct (existsb delivered delta); subst b; simpl.
      * split; [intros [H | [H | []]]; contradiction | discriminate].
      * split; [reflexivity | intros _; right; right; now left].
    + rewrite !existsb_app, handoff_delivers_nothing, warning_delivers_nothing,
        !orb_false_r, <- Hb. tauto.
  - do 2 eexists. split; [exact Hrun |]. discriminate.
Qed.
